(** * pop-choice-worker: the recommendation request pipeline

    A shallow embedding of [src/index.ts] (the Worker's [fetch] handler),
    [src/observability/metrics.ts] (cost and score statistics) and
    [convex/movies.ts] (the [searchMovies] action), followed by the
    properties of the pipeline that are proved about them.

    Conventions of the embedding:
    - a JavaScript number is a binary64 float ([PrimFloat.float]); lengths of
      strings and arrays are [nat] and are converted where the source does
      arithmetic on them;
    - a JavaScript string is a [string]; a character stands for one UTF-16
      code unit below 256;
    - a promise that rejects and a statement that throws are an [Outcome]
      whose constructor is [Thrown];
    - the remote collaborators (OpenAI, Convex) are functions of a [World];
      the Opik calls, the remote calls and [console.error] are recorded in
      order in a log of [Event]s, and the Opik calls are taken to return. *)

From Stdlib Require Import String Ascii List Bool Arith ZArith Lia.
From Corelib Require Import PrimFloat FloatClass.
From Stdlib Require Import Uint63 Floats.
Import ListNotations.
Open Scope string_scope.

Set Warnings "-inexact-float".

(* ------------------------------------------------------------------ *)
(** ** The fragment of JavaScript the sources rely on *)

Module JS.

(** The value carried by a [throw]: the sources only read [error.message]. *)
Record JsError := mkError { message : string }.

Inductive Outcome (A : Type) : Type :=
| Returned (a : A)
| Thrown (e : JsError).
Arguments Returned {A} a.
Arguments Thrown {A} e.

(** The double quote, the single quote, the line feed and the tab. *)
Definition dq : string := String (ascii_of_nat 34) "".
Definition sq : string := String (ascii_of_nat 39) "".
Definition nl : string := String (ascii_of_nat 10) "".
Definition tab : string := String (ascii_of_nat 9) "".

Fixpoint tabs (n : nat) : string :=
  match n with
  | O => ""
  | S k => tab ++ tabs k
  end.

(** The TypeError of V8 for reading property [prop] of [undefined]. *)
Definition typeError (prop : string) : JsError :=
  mkError ("Cannot read properties of undefined (reading " ++ sq ++ prop ++ sq ++ ")").

(** Truthiness of a string: only the empty string is falsy. *)
Definition truthy (s : string) : bool := negb (s =? "").

(** [String.prototype.includes(needle)]. *)
Fixpoint includes (s needle : string) : bool :=
  String.prefix needle s ||
  match s with
  | EmptyString => false
  | String _ rest => includes rest needle
  end.

(** [Array.prototype.includes] on an array of strings. *)
Definition array_includes (l : list string) (x : string) : bool :=
  existsb (String.eqb x) l.

(** [Array.prototype.join(sep)] on an array of strings. *)
Definition join (sep : string) (l : list string) : string := String.concat sep l.

(** [String.prototype.split(sep)] for a one-character separator. *)
Fixpoint split (sep : ascii) (s : string) : list string :=
  match s with
  | EmptyString => [EmptyString]
  | String c rest =>
      if Ascii.eqb c sep then EmptyString :: split sep rest
      else match split sep rest with
           | [] => [String c EmptyString]
           | h :: t => String c h :: t
           end
  end.

(** White space of [String.prototype.trim] among the code units below 256:
    TAB, LF, VT, FF, CR, SP and NBSP. *)
Definition is_whitespace (c : ascii) : bool :=
  match nat_of_ascii c with
  | 9 | 10 | 11 | 12 | 13 | 32 | 160 => true
  | _ => false
  end.

Fixpoint trimStart (s : string) : string :=
  match s with
  | EmptyString => EmptyString
  | String c rest => if is_whitespace c then trimStart rest else s
  end.

Fixpoint trimEnd (s : string) : string :=
  match s with
  | EmptyString => EmptyString
  | String c rest =>
      let rest' := trimEnd rest in
      if is_whitespace c && (rest' =? "") then EmptyString else String c rest'
  end.

Definition trim (s : string) : string := trimEnd (trimStart s).

(** A length or a count as a JavaScript number. *)
Definition of_nat (n : nat) : float := PrimFloat.of_uint63 (Uint63.of_Z (Z.of_nat n)).

Definition is_zero (x : float) : bool :=
  match PrimFloat.classify x with
  | PZero | NZero => true
  | _ => false
  end.

(** [x || 0] on a number that may be [undefined]: 0, -0, NaN and
    [undefined] are falsy. *)
Definition or_zero (x : option float) : float :=
  match x with
  | Some v => if is_zero v || PrimFloat.is_nan v then 0%float else v
  | None => 0%float
  end.

(** [Math.max(...xs)]: NaN if an argument is NaN, -Infinity with no
    argument, and +0 is larger than -0. *)
Definition max_step (highest number : float) : float :=
  match PrimFloat.classify number, PrimFloat.classify highest with
  | PZero, NZero => number
  | _, _ => if PrimFloat.ltb highest number then number else highest
  end.

Definition Math_max (xs : list float) : float :=
  if existsb PrimFloat.is_nan xs then nan
  else fold_left max_step xs neg_infinity.

(** [Math.min(...xs)]: NaN if an argument is NaN, +Infinity with no
    argument, and -0 is smaller than +0. *)
Definition min_step (lowest number : float) : float :=
  match PrimFloat.classify number, PrimFloat.classify lowest with
  | NZero, PZero => number
  | _, _ => if PrimFloat.ltb number lowest then number else lowest
  end.

Definition Math_min (xs : list float) : float :=
  if existsb PrimFloat.is_nan xs then nan
  else fold_left min_step xs infinity.

(** [Math.ceil(n / d)] for array and string lengths. *)
Definition ceil_div (n d : nat) : nat := (n + (d - 1)) / d.

End JS.

(* ------------------------------------------------------------------ *)
(** ** convex/movies.ts *)

Module Movies.
Import JS.

Record MovieSearchResult := mkMovie {
  id : string;
  content : string;
  score : float;
}.

(** A match of [ctx.vectorSearch]. *)
Record VectorMatch := mkMatch { _id : string; _score : float }.

(** A document of the [movies] table. *)
Record Doc := mkDoc { doc_content : string; doc_embedding : list float }.

Record SearchArgs := mkArgs {
  embedding : list float;
  matchThreshold : float;
  matchCount : float;
}.

(** The action context: the vector index ([ctx.vectorSearch] on
    [movies.by_embedding], given the query vector and the limit) and the
    internal query [getMovie] ([ctx.db.get], [None] for [null]). *)
Record ActionCtx := mkCtx {
  vectorSearch : list float -> float -> Outcome (list VectorMatch);
  getMovie : string -> Outcome (option Doc);
}.

(** The body of the callback mapped over the retained matches. *)
Definition fetchMovie (ctx : ActionCtx) (result : VectorMatch) : Outcome MovieSearchResult :=
  match getMovie ctx (_id result) with
  | Thrown e => Thrown e
  | Returned doc =>
      Returned {| id := _id result;
                  content := match doc with Some d => doc_content d | None => "" end;
                  score := _score result |}
  end.

(** [Promise.all]: the array of the results, or the first rejection (the
    model takes the first in array order). *)
Fixpoint Promise_all {A : Type} (l : list (Outcome A)) : Outcome (list A) :=
  match l with
  | [] => Returned []
  | Thrown e :: _ => Thrown e
  | Returned a :: rest =>
      match Promise_all rest with
      | Thrown e => Thrown e
      | Returned r => Returned (a :: r)
      end
  end.

Definition searchMovies (ctx : ActionCtx) (args : SearchArgs) : Outcome (list MovieSearchResult) :=
  match vectorSearch ctx (embedding args) (matchCount args) with
  | Thrown e => Thrown e
  | Returned results =>
      let filteredResults :=
        filter (fun result => PrimFloat.leb (matchThreshold args) (_score result)) results in
      Promise_all (map (fetchMovie ctx) filteredResults)
  end.

(** *** Reading a result *)

(** The matches that [searchMovies] retains. *)
Definition retained (args : SearchArgs) (results : list VectorMatch) : list VectorMatch :=
  filter (fun result => PrimFloat.leb (matchThreshold args) (_score result)) results.

(** [movie] is the candidate built from the match [result]. *)
Definition candidateOf (ctx : ActionCtx) (result : VectorMatch) (movie : MovieSearchResult) : Prop :=
  id movie = _id result /\
  score movie = _score result /\
  exists doc, getMovie ctx (_id result) = Returned doc /\
    content movie = match doc with Some d => doc_content d | None => "" end.

(** The content that [searchMovies] gives the match with key [key]. *)
Definition contentOf (ctx : ActionCtx) (key : string) : string :=
  match getMovie ctx key with
  | Returned (Some d) => doc_content d
  | _ => ""
  end.

End Movies.

(* ------------------------------------------------------------------ *)
(** ** src/observability/metrics.ts *)

Module Metrics.
Import JS Movies.

(** What [pricing[key]] evaluates to on the object literal: an own entry,
    a member inherited from [Object.prototype], or [undefined]. *)
Inductive PricingEntry :=
| Rates (input output : float)
| Inherited
| Undefined.

(** The property names every object literal inherits in V8. *)
Definition object_prototype_keys : list string :=
  [ "constructor"; "__defineGetter__"; "__defineSetter__"; "hasOwnProperty";
    "__lookupGetter__"; "__lookupSetter__"; "isPrototypeOf";
    "propertyIsEnumerable"; "toString"; "valueOf"; "__proto__";
    "toLocaleString" ].

Definition pricing (key : string) : PricingEntry :=
  if key =? "gpt-4o-mini" then
    Rates (0.15 / 1000000)%float (0.6 / 1000000)%float
  else if key =? "text-embedding-3-small" then
    Rates (0.02 / 1000000)%float 0%float
  else if array_includes object_prototype_keys key then Inherited
  else Undefined.

(** [rates.input] and [rates.output] as the operands of [*]: a property
    that is not there reads [undefined], which [*] converts to NaN. *)
Definition rates_input (rates : PricingEntry) : float :=
  match rates with Rates i _ => i | _ => nan end.

Definition rates_output (rates : PricingEntry) : float :=
  match rates with Rates _ o => o | _ => nan end.

Definition calculateCost (promptTokens completionTokens : float) (model : string) : float :=
  let rates :=
    match pricing model with
    | Undefined => pricing "gpt-4o-mini"
    | entry => entry
    end in
  (promptTokens * rates_input rates + completionTokens * rates_output rates)%float.

Definition calculateAverageScore (results : list MovieSearchResult) : float :=
  if Nat.eqb (List.length results) 0 then 0%float
  else
    let sum := fold_left (fun acc r => (acc + score r)%float) results 0%float in
    (sum / of_nat (List.length results))%float.

Definition calculateTopScore (results : list MovieSearchResult) : float :=
  if Nat.eqb (List.length results) 0 then 0%float
  else Math_max (map score results).

Definition calculateMinScore (results : list MovieSearchResult) : float :=
  if Nat.eqb (List.length results) 0 then 0%float
  else Math_min (map score results).

End Metrics.

(* ------------------------------------------------------------------ *)
(** ** The OpenAI client: requests and responses as the handler uses them *)

Module OpenAI.

Record EmbeddingCreateParams := mkEmbeddingParams {
  embedding_model : string;
  input : string;
  encoding_format : string;
}.

Record Embedding := mkEmbedding { embedding : list float }.

Record CreateEmbeddingResponse := mkEmbeddingResponse { data : list Embedding }.

Record ChatCompletionMessageParam := mkParam { role : string; content : string }.

Record ChatCompletionCreateParams := mkChatParams {
  model : string;
  messages : list ChatCompletionMessageParam;
  temperature : float;
}.

(** [message.content] is [string | null]. *)
Record ChatCompletionMessage := mkMessage { message_content : option string }.

Record Choice := mkChoice { message : ChatCompletionMessage }.

Record CompletionUsage := mkUsage {
  prompt_tokens : float;
  completion_tokens : float;
  total_tokens : float;
}.

(** [usage] is optional. *)
Record ChatCompletion := mkCompletion {
  choices : list Choice;
  usage : option CompletionUsage;
}.

End OpenAI.

(* ------------------------------------------------------------------ *)
(** ** The Opik client: what the handler records *)

Module Opik.
Import Movies.

Record TraceInput := mkTraceInput {
  in_numberOfPeople : string;
  in_availableRunTime : string;
  in_userResponses : string;
  in_peopleResponsesCount : nat;
}.

Inductive SpanInput :=
| EmbeddingInput (text model : string) (inputLength : nat)
| SearchInput (threshold matchCount : float) (embeddingDimensions : nat)
| LLMInput (model : string) (temperature : float)
    (systemPromptLength userPromptLength movieContextLength : nat).

Inductive SpanOutput :=
| EmbeddingOutput (dimensions : nat)
| SearchOutput (resultsCount : nat) (topScore avgScore minScore : float)
| LLMOutput (responseLength : nat) (promptTokens completionTokens totalTokens : float)
| SpanError (error : string).

(** [metadata.usage] of the generation span. *)
Record SpanUsage := mkSpanUsage {
  usage_promptTokens : float;
  usage_completionTokens : float;
  usage_totalTokens : float;
}.

Inductive TraceOutput :=
| TraceError (error : string)
| TraceResult (movieRecommendations : option (list MovieSearchResult))
    (content : string) (noMatchFromLLM : bool).

Record TraceMetadata := mkMetadata {
  totalTokens : float;
  totalCost : float;
  success : bool;
  errorMessage : option string;
}.

End Opik.

(* ------------------------------------------------------------------ *)
(** ** src/index.ts *)

Module Worker.
Import JS Movies Metrics.

(** The configuration the handler reads; the other variables of [Env] are
    the keys and URLs from which the clients are built. *)
Record Env := mkEnv { ALLOWED_ORIGINS : option string }.

Record Person := mkPerson {
  userResponses : string;
  stringifiedQueryAndResponses : string;
}.

Record MovieSetUpPreferences := mkPreferences {
  numberOfPeople : string;
  time : string;
}.

Record RequestData := mkRequestData {
  movieSetUpPreferences : MovieSetUpPreferences;
  peopleResponses : list Person;
}.

(** An inbound request: its method, [headers.get('origin')] ([None] for
    [null]) and the promise of [request.json()] at the type the handler
    casts it to. *)
Record Request := mkRequest {
  method : string;
  origin : option string;
  json : Outcome RequestData;
}.

(** The argument of [JSON.stringify] in each response, [NoBody] for a
    [null] body. *)
Inductive Body :=
| NoBody
| ErrorBody (error : string) (details : option string)
| SuccessBody (movieRecommendations : option (list MovieSearchResult))
    (content : string) (noMatchFromLLM : bool).

Record Response := mkResponse {
  status : nat;
  headers : list (string * string);
  body : Body;
}.

(** How a call of [fetch] ends: with a response, or with the exception
    that escapes it. *)
Inductive Completion :=
| Responded (r : Response)
| Rejected (e : JsError).

(** The remote collaborators. *)
Record World := mkWorld {
  embeddings_create : OpenAI.EmbeddingCreateParams -> Outcome OpenAI.CreateEmbeddingResponse;
  convex_action : SearchArgs -> Outcome (list MovieSearchResult);
  chat_completions_create : OpenAI.ChatCompletionCreateParams -> Outcome OpenAI.ChatCompletion;
}.

(** The Convex deployment that runs [searchMovies] over [ctx]. *)
Definition deployed (ctx : ActionCtx) : SearchArgs -> Outcome (list MovieSearchResult) :=
  searchMovies ctx.

Inductive Event :=
| OpikTrace (name : string) (input : Opik.TraceInput) (tags : list string)
| TraceSpan (name type : string) (input : Opik.SpanInput)
| SpanUpdate (span : string) (output : Opik.SpanOutput) (metadata : option Opik.SpanUsage)
| SpanEnd (span : string)
| TraceUpdate (output : Opik.TraceOutput) (metadata : option Opik.TraceMetadata)
| TraceEnd
| OpikFlush
| EmbeddingsCreate (params : OpenAI.EmbeddingCreateParams)
| ConvexAction (args : SearchArgs)
| ChatCompletionsCreate (params : OpenAI.ChatCompletionCreateParams)
| ConsoleError (label : string) (error : JsError).

(** *** The handler's control: a log of events and early [return] *)

Inductive Step (A : Type) : Type :=
| Continue (a : A)
| Finish (c : Completion).
Arguments Continue {A} a.
Arguments Finish {A} c.

Definition Run (A : Type) : Type := list Event -> list Event * Step A.

Definition ret {A : Type} (a : A) : Run A := fun log => (log, Continue a).

Definition bind {A B : Type} (c : Run A) (k : A -> Run B) : Run B :=
  fun log =>
    match c log with
    | (log', Continue a) => k a log'
    | (log', Finish r) => (log', Finish r)
    end.

Definition emit (e : Event) : Run unit := fun log => ((log ++ [e])%list, Continue tt).

Definition finish {A : Type} (r : Response) : Run A := fun log => (log, Finish (Responded r)).

Notation "x <- c ;; k" := (bind c (fun x => k))
  (at level 61, c at next level, right associativity).
Notation "' pat <- c ;; k" := (bind c (fun x => match x with pat => k end))
  (at level 61, pat pattern, c at next level, right associativity).
Notation "c ;; k" := (bind c (fun _ => k))
  (at level 61, right associativity).

Definition exec (c : Run Response) : list Event * Completion :=
  match c [] with
  | (log, Continue r) => (log, Responded r)
  | (log, Finish r) => (log, r)
  end.

(** *** Origin policy *)

Definition getAllowedOrigins (env : Env) : list string :=
  match ALLOWED_ORIGINS env with
  | None => ["http://localhost:5173"]
  | Some s =>
      if truthy s then map trim (split "," s)
      else ["http://localhost:5173"]
  end.

Definition isOriginAllowed (origin : option string) (allowedOrigins : list string) : bool :=
  match origin with
  | None => false
  | Some o => if truthy o then array_includes allowedOrigins o else false
  end.

Definition corsHeaders (origin : option string) (env : Env) : list (string * string) :=
  let allowedOrigins := getAllowedOrigins env in
  let isAllowed := isOriginAllowed origin allowedOrigins in
  [ ("Access-Control-Allow-Origin",
      match origin with
      | Some o => if isAllowed && truthy o then o else ""
      | None => ""
      end);
    ("Access-Control-Allow-Methods", "POST, OPTIONS");
    ("Access-Control-Allow-Headers", "Content-Type, Authorization");
    ("Access-Control-Allow-Credentials", "true");
    ("Content-Type", "application/json") ].

(** The value of a header of a response. *)
Fixpoint header (name : string) (hs : list (string * string)) : option string :=
  match hs with
  | [] => None
  | (k, v) :: rest => if k =? name then Some v else header name rest
  end.

(** *** The prompt of the generation call *)

Definition systemPrompt (numberOfPeople : string) : string :=
  join nl
    [ "You are an expert movie buff and a recommendation buddy who enjoys helping people find movies that match their preferences. ";
      "";
      tabs 4 ++ "There are " ++ numberOfPeople ++ " people in the group who have provided their responses to the questions about movies.";
      tabs 3 ++ "  You will be given 4 questions from " ++ numberOfPeople ++ " people. ";
      tabs 3 ++ "  You will also be given 6 movie recommendations the most aligns to the preferences based on their answers.";
      tabs 3 ++ "  Your main job is to formulate a short answer to the questions using the provided questions and answers.";
      tabs 3 ++ "  Formulate 6 short paragraphs for each movie recommendation with more details about the movie. DO NOT SUGGEST MOVIES FROM THE RESPONSES. ONLY USE THE MOVIE RECOMMENDATIONS. ";
      tabs 3 ++ "  If you are unsure and cannot find the users answers or have no movie recommendation or more details about the movie, say, " ++ dq ++ "Sorry, I don't know a movie at the moment. Lets have another go with the questions from the previous section";
      tabs 3 ++ "  ." ++ dq ++ " Please do not make up the answer. Also dont repeat the users answers.";
      "";
      "";
      tabs 3 ++ "  Here is the format of the response:";
      tabs 3 ++ "  {";
      tabs 4 ++ dq ++ "movieRecommendations" ++ dq ++ ": [";
      tabs 5 ++ "{";
      tabs 6 ++ dq ++ "title" ++ dq ++ ": " ++ dq ++ "Movie Title" ++ dq ++ ",";
      tabs 6 ++ dq ++ "releaseYear" ++ dq ++ ": " ++ dq ++ "2024" ++ dq ++ ",";
      tabs 6 ++ dq ++ "content" ++ dq ++ ": " ++ dq ++ "Short paragraph about the movie ..." ++ dq;
      tabs 5 ++ "}";
      tabs 4 ++ "]";
      tabs 3 ++ "  }";
      tabs 3 ++ "  " ].

(** [matchedResults.map(content).filter(content => content).join('\n\n')]. *)
Definition movieRecommendationsResultsString (matchedResults : list MovieSearchResult) : string :=
  join (nl ++ nl) (filter truthy (map Movies.content matchedResults)).

Definition chatMessages (numberOfPeople allParticipantsResponsesAndAnswers : string)
    (matchedResults : list MovieSearchResult) : list OpenAI.ChatCompletionMessageParam :=
  [ OpenAI.mkParam "system" (systemPrompt numberOfPeople);
    OpenAI.mkParam "user"
      ("Questions and Answers from " ++ numberOfPeople ++ " people: "
         ++ allParticipantsResponsesAndAnswers ++ nl ++ " Movie Recommendations: "
         ++ movieRecommendationsResultsString matchedResults) ].

(** The text the handler searches the generated text for. *)
Definition noMatchMarker : string := "Sorry, I don't know a movie at the moment".

(** *** The three stages of the pipeline *)

(** The text of the embedding request and of the embedding span. *)
Definition embeddingText (availableRunTime allParticipantsResponses : string) : string :=
  availableRunTime ++ nl ++ allParticipantsResponses.

Definition embeddingParams (availableRunTime allParticipantsResponses : string)
    : OpenAI.EmbeddingCreateParams :=
  OpenAI.mkEmbeddingParams "text-embedding-3-small"
    (embeddingText availableRunTime allParticipantsResponses) "float".

(** The [catch] blocks of the embedding and of the search stage. *)
Definition failStage {A : Type} (allowedHeaders : list (string * string))
    (span label : string) (error : JsError) : Run A :=
  emit (ConsoleError (label ++ ":") error) ;;
  emit (SpanUpdate span (Opik.SpanError (message error)) None) ;;
  emit (SpanEnd span) ;;
  emit (TraceUpdate (Opik.TraceError label) None) ;;
  emit TraceEnd ;;
  emit OpikFlush ;;
  finish (mkResponse 500 allowedHeaders (ErrorBody label (Some (message error)))).

(** Lines 110-158: the embedding span; the result is the vector and the
    running [totalCost]. *)
Definition embeddingStage (w : World) (allowedHeaders : list (string * string))
    (availableRunTime allParticipantsResponses : string) : Run (list float * float) :=
  let text := embeddingText availableRunTime allParticipantsResponses in
  emit (TraceSpan "generate-embedding" "general"
          (Opik.EmbeddingInput text "text-embedding-3-small" (String.length text))) ;;
  emit (EmbeddingsCreate (embeddingParams availableRunTime allParticipantsResponses)) ;;
  match embeddings_create w (embeddingParams availableRunTime allParticipantsResponses) with
  | Thrown error =>
      failStage allowedHeaders "generate-embedding"
        "Error creating embeddings for userResponses" error
  | Returned embeddingResponse =>
      match OpenAI.data embeddingResponse with
      | [] =>
          failStage allowedHeaders "generate-embedding"
            "Error creating embeddings for userResponses" (typeError "embedding")
      | first :: _ =>
          let embedding := OpenAI.embedding first in
          let estimatedTokens := ceil_div (String.length text) 4 in
          let totalCost :=
            (0 + calculateCost (of_nat estimatedTokens) 0 "text-embedding-3-small")%float in
          emit (SpanUpdate "generate-embedding"
                  (Opik.EmbeddingOutput (List.length embedding)) None) ;;
          emit (SpanEnd "generate-embedding") ;;
          ret (embedding, totalCost)
      end
  end.

(** The arguments of the [searchMovies] action. *)
Definition searchArgs (embedding : list float) : SearchArgs :=
  mkArgs embedding 0.2%float 6%float.

(** Lines 160-206: the vector search span. *)
Definition searchStage (w : World) (allowedHeaders : list (string * string))
    (embedding : list float) : Run (list MovieSearchResult) :=
  emit (TraceSpan "vector-search" "general"
          (Opik.SearchInput 0.2%float 6%float (List.length embedding))) ;;
  emit (ConvexAction (searchArgs embedding)) ;;
  match convex_action w (searchArgs embedding) with
  | Thrown error =>
      failStage allowedHeaders "vector-search" "Error matching documents in Convex" error
  | Returned matchedResults =>
      emit (SpanUpdate "vector-search"
              (Opik.SearchOutput (List.length matchedResults)
                 (calculateTopScore matchedResults)
                 (calculateAverageScore matchedResults)
                 (calculateMinScore matchedResults)) None) ;;
      emit (SpanEnd "vector-search") ;;
      ret matchedResults
  end.

Definition chatParams (numberOfPeople allParticipantsResponsesAndAnswers : string)
    (matchedResults : list MovieSearchResult) : OpenAI.ChatCompletionCreateParams :=
  OpenAI.mkChatParams "gpt-4o-mini"
    (chatMessages numberOfPeople allParticipantsResponsesAndAnswers matchedResults)
    1.1%float.

(** The [catch] block of the generation stage. *)
Definition failGeneration {A : Type} (allowedHeaders : list (string * string))
    (totalTokens totalCost : float) (error : JsError) : Run A :=
  emit (ConsoleError "Error creating chat completion:" error) ;;
  emit (SpanUpdate "llm-generation" (Opik.SpanError (message error)) None) ;;
  emit (SpanEnd "llm-generation") ;;
  emit (TraceUpdate (Opik.TraceError "Error creating chat completion")
          (Some (Opik.mkMetadata totalTokens totalCost false (Some (message error))))) ;;
  emit TraceEnd ;;
  emit OpikFlush ;;
  finish (mkResponse 500 allowedHeaders
            (ErrorBody "Error creating chat completion" (Some (message error)))).

(** [responseObject] after lines 292-307: its [content],
    [movieRecommendations] and [noMatchFromLLM]. *)
Definition responseObject (generated : option string)
    (matchedResults : list MovieSearchResult)
    : string * option (list MovieSearchResult) * bool :=
  if match generated with
     | Some text => includes text noMatchMarker
     | None => false
     end
  then ("", None, true)
  else (match generated with
        | Some text => if truthy text then text else ""
        | None => ""
        end, Some matchedResults, false).

(** Lines 248-363: the generation span and the final response. *)
Definition generationStage (w : World) (allowedHeaders : list (string * string))
    (numberOfPeople allParticipantsResponsesAndAnswers : string)
    (matchedResults : list MovieSearchResult) (totalCost0 : float) : Run Response :=
  let messages :=
    chatMessages numberOfPeople allParticipantsResponsesAndAnswers matchedResults in
  emit (TraceSpan "llm-generation" "llm"
          (Opik.LLMInput "gpt-4o-mini" 1.1%float
             (String.length (OpenAI.content (nth 0 messages (OpenAI.mkParam "" ""))))
             (String.length (OpenAI.content (nth 1 messages (OpenAI.mkParam "" ""))))
             (String.length (movieRecommendationsResultsString matchedResults)))) ;;
  emit (ChatCompletionsCreate
          (chatParams numberOfPeople allParticipantsResponsesAndAnswers matchedResults)) ;;
  match chat_completions_create w
          (chatParams numberOfPeople allParticipantsResponsesAndAnswers matchedResults) with
  | Thrown error => failGeneration allowedHeaders 0%float totalCost0 error
  | Returned response =>
      let usage := OpenAI.usage response in
      let totalTokens := or_zero (option_map OpenAI.total_tokens usage) in
      let promptTokens := or_zero (option_map OpenAI.prompt_tokens usage) in
      let completionTokens := or_zero (option_map OpenAI.completion_tokens usage) in
      let totalCost :=
        (totalCost0 + calculateCost promptTokens completionTokens "gpt-4o-mini")%float in
      match OpenAI.choices response with
      | [] => failGeneration allowedHeaders totalTokens totalCost (typeError "message")
      | first :: _ =>
          let generated := OpenAI.message_content (OpenAI.message first) in
          emit (SpanUpdate "llm-generation"
                  (Opik.LLMOutput
                     (match generated with Some text => String.length text | None => 0 end)
                     promptTokens completionTokens totalTokens)
                  (Some (Opik.mkSpanUsage promptTokens completionTokens totalTokens))) ;;
          emit (SpanEnd "llm-generation") ;;
          let '(content, movieRecommendations, noMatchFromLLM) :=
            responseObject generated matchedResults in
          emit (TraceUpdate (Opik.TraceResult movieRecommendations content noMatchFromLLM)
                  (Some (Opik.mkMetadata totalTokens totalCost true None))) ;;
          emit TraceEnd ;;
          emit OpikFlush ;;
          ret (mkResponse 200 allowedHeaders
                 (SuccessBody movieRecommendations
                    (if truthy content then content else "") noMatchFromLLM))
      end
  end.

(** Lines 78-363: the pipeline on the parsed body. *)
Definition pipeline (w : World) (allowedHeaders : list (string * string))
    (requestData : RequestData) : Run Response :=
  let availableRunTime := time (movieSetUpPreferences requestData) in
  let numberOfPeople := numberOfPeople (movieSetUpPreferences requestData) in
  let peopleResponses := peopleResponses requestData in
  let allParticipantsResponses := join nl (map userResponses peopleResponses) in
  let allParticipantsResponsesAndAnswers :=
    join nl (map stringifiedQueryAndResponses peopleResponses) in
  emit (OpikTrace "movie-recommendation-request"
          (Opik.mkTraceInput numberOfPeople availableRunTime allParticipantsResponses
             (List.length peopleResponses))
          [ "production"; "people-" ++ numberOfPeople; "runtime-" ++ availableRunTime ]) ;;
  ' (embedding, totalCost) <-
      embeddingStage w allowedHeaders availableRunTime allParticipantsResponses ;;
  matchedResults <- searchStage w allowedHeaders embedding ;;
  generationStage w allowedHeaders numberOfPeople allParticipantsResponsesAndAnswers
    matchedResults totalCost.

(** The handler: the events it records and how it ends. *)
Definition fetch (w : World) (request : Request) (env : Env) : list Event * Completion :=
  let allowedOrigins := getAllowedOrigins env in
  let allowedHeaders := corsHeaders (origin request) env in
  if method request =? "OPTIONS" then
    ([], Responded (mkResponse 204 allowedHeaders NoBody))
  else if negb (isOriginAllowed (origin request) allowedOrigins) then
    ([], Responded (mkResponse 403 allowedHeaders (ErrorBody "Origin not allowed" None)))
  else if negb (method request =? "POST") then
    ([], Responded (mkResponse 405 allowedHeaders
                      (ErrorBody ("Method " ++ method request ++ " not allowed") None)))
  else
    match json request with
    | Thrown e => ([], Rejected e)
    | Returned requestData => exec (pipeline w allowedHeaders requestData)
    end.

(** *** Reading a run *)

(** The requests the handler sends for the body [requestData]. *)
Definition embeddingRequest (requestData : RequestData) : OpenAI.EmbeddingCreateParams :=
  embeddingParams (time (movieSetUpPreferences requestData))
    (join nl (map userResponses (peopleResponses requestData))).

Definition chatRequest (requestData : RequestData) (matchedResults : list MovieSearchResult)
    : OpenAI.ChatCompletionCreateParams :=
  chatParams (numberOfPeople (movieSetUpPreferences requestData))
    (join nl (map stringifiedQueryAndResponses (peopleResponses requestData)))
    matchedResults.

(** The generated text: [message.content], the empty string when it is [null]. *)
Definition generatedText (first : OpenAI.Choice) : string :=
  match OpenAI.message_content (OpenAI.message first) with
  | Some text => text
  | None => ""
  end.

(** [noMatchFromLLM] of a success response. *)
Definition noMatchOf (c : Completion) : option bool :=
  match c with
  | Responded r =>
      match body r with
      | SuccessBody _ _ noMatchFromLLM => Some noMatchFromLLM
      | _ => None
      end
  | Rejected _ => None
  end.

Definition bodyOf (c : Completion) : option Body :=
  match c with
  | Responded r => Some (body r)
  | Rejected _ => None
  end.

Definition statusOf (c : Completion) : option nat :=
  match c with
  | Responded r => Some (status r)
  | Rejected _ => None
  end.

Definition countEvents (p : Event -> bool) (log : list Event) : nat :=
  List.length (filter p log).

Definition isTraceEnd (e : Event) : bool :=
  match e with TraceEnd => true | _ => false end.

Definition isFlush (e : Event) : bool :=
  match e with OpikFlush => true | _ => false end.

(** The metadata of each [trace.update] of a run, in order. *)
Fixpoint traceMetadata (log : list Event) : list (option Opik.TraceMetadata) :=
  match log with
  | [] => []
  | TraceUpdate _ metadata :: rest => metadata :: traceMetadata rest
  | _ :: rest => traceMetadata rest
  end.

(** A run that ends in the 500 of a failed stage: the response names the
    stage and carries the message of [error], and the trace is ended once,
    flushed once and updated once, with [metadata]. *)
Definition failedWith (run : list Event * Completion) (allowedHeaders : list (string * string))
    (label : string) (error : JsError) (metadata : option Opik.TraceMetadata) : Prop :=
  snd run = Responded (mkResponse 500 allowedHeaders (ErrorBody label (Some (message error)))) /\
  countEvents isTraceEnd (fst run) = 1 /\
  countEvents isFlush (fst run) = 1 /\
  traceMetadata (fst run) = [metadata].

(** The requests sent to the embedding service in a run, in order. *)
Fixpoint embeddingCalls (log : list Event) : list OpenAI.EmbeddingCreateParams :=
  match log with
  | [] => []
  | EmbeddingsCreate params :: rest => params :: embeddingCalls rest
  | _ :: rest => embeddingCalls rest
  end.

(** The arguments of the calls of [searchMovies] in a run, in order. *)
Fixpoint searchCalls (log : list Event) : list SearchArgs :=
  match log with
  | [] => []
  | ConvexAction args :: rest => args :: searchCalls rest
  | _ :: rest => searchCalls rest
  end.

End Worker.

(* ------------------------------------------------------------------ *)
(** ** The specification's wording, for comparison with the code *)

Module Spec.
Import JS Worker.

(** The sentinel sentence of the generation contract, in full. *)
Definition sentinelSentence : string :=
  "Sorry, I don't know a movie at the moment. Lets have another go with the questions from the previous section.".

(** The embedding text: the available time and every participant's
    [userResponses], newline-joined, in participant order. *)
Definition embeddingInput (requestData : RequestData) : string :=
  join nl (time (movieSetUpPreferences requestData)
             :: map userResponses (peopleResponses requestData)).

(** [needle] occurs in [text]. *)
Definition occursIn (needle text : string) : Prop :=
  exists before after, text = before ++ needle ++ after.

End Spec.

(* ------------------------------------------------------------------ *)
(** ** A concrete scenario: two participants, 120 minutes *)

Module Scenario.
Import JS Movies Worker.

Definition env : Env := mkEnv None.

Definition requestData : RequestData :=
  mkRequestData (mkPreferences "2" "120 minutes")
    [ mkPerson "I like action movies" "Q: Genre? A: Action movies";
      mkPerson "I like comedies" "Q: Genre? A: Comedies" ].

Definition post : Request :=
  mkRequest "POST" (Some "http://localhost:5173") (Returned requestData).

Definition vector : list float := [0.25%float; 0.5%float; 0.125%float].

(** An index with four matches, one below the threshold, and a table from
    which the document of the second match is missing. *)
Definition ctx : ActionCtx :=
  mkCtx
    (fun _ _ => Returned [ mkMatch "m1" 0.9%float; mkMatch "m2" 0.5%float;
                           mkMatch "m3" 0.3%float; mkMatch "m4" 0.1%float ])
    (fun key =>
       if key =? "m2" then Returned None
       else Returned (Some (mkDoc ("Movie " ++ key) vector))).

(** What [searchMovies] returns over [ctx] at the handler's threshold. *)
Definition matched : list MovieSearchResult :=
  [ mkMovie "m1" "Movie m1" 0.9%float; mkMovie "m2" "" 0.5%float;
    mkMovie "m3" "Movie m3" 0.3%float ].

Definition completion (generated : option string) : OpenAI.ChatCompletion :=
  OpenAI.mkCompletion [ OpenAI.mkChoice (OpenAI.mkMessage generated) ]
    (Some (OpenAI.mkUsage 1000%float 500%float 1500%float)).

(** Every remote call succeeds; the generation service answers [generated]. *)
Definition world (generated : option string) : World :=
  mkWorld
    (fun _ => Returned (OpenAI.mkEmbeddingResponse [ OpenAI.mkEmbedding vector ]))
    (deployed ctx)
    (fun _ => Returned (completion generated)).

Definition boom : JsError := mkError "Connection error.".

(** The embedding service is down. *)
Definition embeddingDown : World :=
  mkWorld (fun _ => Thrown boom) (deployed ctx) (fun _ => Returned (completion None)).

(** The Convex deployment is down. *)
Definition searchDown : World :=
  mkWorld
    (fun _ => Returned (OpenAI.mkEmbeddingResponse [ OpenAI.mkEmbedding vector ]))
    (fun _ => Thrown boom)
    (fun _ => Returned (completion None)).

(** The generation service is down. *)
Definition generationDown : World :=
  mkWorld
    (fun _ => Returned (OpenAI.mkEmbeddingResponse [ OpenAI.mkEmbedding vector ]))
    (deployed ctx)
    (fun _ => Thrown boom).

(** A preflight request that carries no [Origin] header. *)
Definition preflight : Request := mkRequest "OPTIONS" None (Thrown (mkError "no body")).

End Scenario.


(* ------------------------------------------------------------------ *)
(** ** Reading the log of a run *)

Module Reading.
Import JS Movies Worker.

(** The remote calls of the pipeline. *)
Inductive RemoteCall := CallEmbedding | CallSearch | CallGeneration.

(** The remote calls of a run, in order. *)
Fixpoint remoteCalls (log : list Event) : list RemoteCall :=
  match log with
  | [] => []
  | EmbeddingsCreate _ :: rest => CallEmbedding :: remoteCalls rest
  | ConvexAction _ :: rest => CallSearch :: remoteCalls rest
  | ChatCompletionsCreate _ :: rest => CallGeneration :: remoteCalls rest
  | _ :: rest => remoteCalls rest
  end.






(** The stage of the pipeline that fails on the body [requestData], the
    label of its [catch] block, the error it catches and the remote calls
    made until then. *)
Inductive StageFails (w : World) (requestData : RequestData)
  : string -> JsError -> list RemoteCall -> Prop :=
| EmbeddingThrows (e : JsError) :
    embeddings_create w (embeddingRequest requestData) = Thrown e ->
    StageFails w requestData "Error creating embeddings for userResponses" e
      [CallEmbedding]
| EmbeddingEmpty :
    embeddings_create w (embeddingRequest requestData)
      = Returned (OpenAI.mkEmbeddingResponse []) ->
    StageFails w requestData "Error creating embeddings for userResponses"
      (typeError "embedding") [CallEmbedding]
| SearchThrows (vector : list float) (others : list OpenAI.Embedding) (e : JsError) :
    embeddings_create w (embeddingRequest requestData)
      = Returned (OpenAI.mkEmbeddingResponse (OpenAI.mkEmbedding vector :: others)) ->
    convex_action w (searchArgs vector) = Thrown e ->
    StageFails w requestData "Error matching documents in Convex" e
      [CallEmbedding; CallSearch]
| GenerationThrows (vector : list float) (others : list OpenAI.Embedding)
    (matchedResults : list MovieSearchResult) (e : JsError) :
    embeddings_create w (embeddingRequest requestData)
      = Returned (OpenAI.mkEmbeddingResponse (OpenAI.mkEmbedding vector :: others)) ->
    convex_action w (searchArgs vector) = Returned matchedResults ->
    chat_completions_create w (chatRequest requestData matchedResults) = Thrown e ->
    StageFails w requestData "Error creating chat completion" e
      [CallEmbedding; CallSearch; CallGeneration]
| GenerationEmpty (vector : list float) (others : list OpenAI.Embedding)
    (matchedResults : list MovieSearchResult) (response : OpenAI.ChatCompletion) :
    embeddings_create w (embeddingRequest requestData)
      = Returned (OpenAI.mkEmbeddingResponse (OpenAI.mkEmbedding vector :: others)) ->
    convex_action w (searchArgs vector) = Returned matchedResults ->
    chat_completions_create w (chatRequest requestData matchedResults) = Returned response ->
    OpenAI.choices response = [] ->
    StageFails w requestData "Error creating chat completion"
      (typeError "message") [CallEmbedding; CallSearch; CallGeneration].

(** The three remote calls return on the body [requestData]: the vector,
    the candidates and the first choice of the completion. *)
Record AllCallsReturn (w : World) (requestData : RequestData) (vector : list float)
    (matchedResults : list MovieSearchResult) (response : OpenAI.ChatCompletion)
    (first : OpenAI.Choice) : Prop := mkAllCallsReturn {
  embedding_returns : exists others,
    embeddings_create w (embeddingRequest requestData)
      = Returned (OpenAI.mkEmbeddingResponse (OpenAI.mkEmbedding vector :: others));
  search_returns : convex_action w (searchArgs vector) = Returned matchedResults;
  generation_returns :
    chat_completions_create w (chatRequest requestData matchedResults) = Returned response;
  first_choice : exists rest, OpenAI.choices response = first :: rest;
}.

(** The character [c] does not occur in [s]. *)
Fixpoint lacks (c : ascii) (s : string) : bool :=
  match s with
  | EmptyString => true
  | String a rest => negb (Ascii.eqb a c) && lacks c rest
  end.

(** The user message of the generation request. *)
Definition userMessage (requestData : RequestData) (matchedResults : list MovieSearchResult)
    : string :=
  OpenAI.content (nth 1 (OpenAI.messages (chatRequest requestData matchedResults))
                    (OpenAI.mkParam "" "")).

(** The requests sent to the generation service in a run, in order. *)
Fixpoint generationCalls (log : list Event) : list OpenAI.ChatCompletionCreateParams :=
  match log with
  | [] => []
  | ChatCompletionsCreate params :: rest => params :: generationCalls rest
  | _ :: rest => generationCalls rest
  end.


(** The output recorded on the vector search span of a run. *)
Fixpoint searchOutputs (log : list Event) : list Opik.SpanOutput :=
  match log with
  | [] => []
  | SpanUpdate span output _ :: rest =>
      if span =? "vector-search" then output :: searchOutputs rest
      else searchOutputs rest
  | _ :: rest => searchOutputs rest
  end.

(** The trace metadata of the last [trace.update] of a log. *)
Definition lastMetadata (log : list Event) : option Opik.TraceMetadata :=
  last (traceMetadata log) None.

End Reading.

(** Configurations and worlds for the properties of the runs. *)
Module Cases.
Import JS Movies Worker.

(** An allow-list of two origins written with spaces around the comma. *)
Definition configured : Env :=
  mkEnv (Some "https://popchoice.app , http://localhost:5173").

(** The embedding service answers with no vector. *)
Definition noVector : World :=
  mkWorld (fun _ => Returned (OpenAI.mkEmbeddingResponse []))
    (deployed Scenario.ctx) (fun _ => Returned (Scenario.completion None)).

(** The index has no match; the generation service answers [generated]
    and reports no usage. *)
Definition noCandidate (generated : option string) : World :=
  mkWorld
    (fun _ => Returned (OpenAI.mkEmbeddingResponse [ OpenAI.mkEmbedding Scenario.vector ]))
    (deployed (mkCtx (fun _ _ => Returned []) (fun _ => Returned None)))
    (fun _ => Returned (OpenAI.mkCompletion
                          [ OpenAI.mkChoice (OpenAI.mkMessage generated) ] None)).



(** The table of [Scenario.ctx] without the documents of the matches
    below the threshold. *)
Definition tableOfRetained : ActionCtx :=
  mkCtx (vectorSearch Scenario.ctx)
    (fun key => if key =? "m4" then Thrown Scenario.boom else getMovie Scenario.ctx key).

End Cases.

(* ------------------------------------------------------------------ *)
(** * Properties *)

Import JS Movies Metrics Worker.

(** Unfolding the handler up to its next remote call, and splitting a run
    on the outcome of that call. *)
Ltac run :=
  cbv [exec pipeline embeddingStage searchStage generationStage
       failStage failGeneration bind emit ret finish app
       OpenAI.data OpenAI.embedding].

Ltac next_call :=
  match goal with
  | |- context [match embeddings_create ?w ?p with _ => _ end] =>
      destruct (embeddings_create w p) as [[[|[?vector] ?others]]|?error]
  | |- context [match convex_action ?w ?a with _ => _ end] =>
      destruct (convex_action w a) as [?matchedResults|?error]
  | |- context [match chat_completions_create ?w ?p with _ => _ end] =>
      destruct (chat_completions_create w p) as [?response|?error]
  | |- context [match OpenAI.choices ?r with _ => _ end] =>
      destruct (OpenAI.choices r) as [|?first ?rest]
  | |- context [responseObject ?g ?m] =>
      destruct (responseObject g m) as [[?content ?recs] ?noMatch]
  end; run.

Ltac all_runs := run; repeat next_call.

(** ** Strings and arrays *)

Lemma prefix_iff (p s : string) :
  String.prefix p s = true <-> exists r, s = p ++ r.
Proof.
  revert s; induction p as [|a p IH]; intros [|b s]; simpl.
  - split; [intros _; now exists "" | reflexivity].
  - split; [intros _; now exists (String b s) | reflexivity].
  - split; [discriminate | intros [r Hr]; discriminate Hr].
  - destruct (ascii_dec a b) as [->|Hab].
    + rewrite IH. split; intros [r Hr]; exists r; [now rewrite Hr | now injection Hr].
    + split; [discriminate | intros [r Hr]; injection Hr as Hb _; congruence].
Qed.

Lemma includes_nil (needle : string) :
  includes "" needle = String.prefix needle "".
Proof. unfold includes. apply orb_false_r. Qed.

Lemma includes_cons (c : ascii) (rest needle : string) :
  includes (String c rest) needle
    = String.prefix needle (String c rest) || includes rest needle.
Proof. reflexivity. Qed.

Lemma includes_iff (s needle : string) :
  includes s needle = true <-> Spec.occursIn needle s.
Proof.
  unfold Spec.occursIn.
  induction s as [|c rest IH].
  - rewrite includes_nil, prefix_iff. split.
    + intros [r Hr]. now exists "", r.
    + intros [[|a before] [after H]]; [now exists after | discriminate H].
  - rewrite includes_cons, orb_true_iff, prefix_iff, IH. split.
    + intros [[r Hr] | [before [after H]]].
      * now exists "", r.
      * exists (String c before), after. simpl. now rewrite H.
    + intros [[|a before] [after H]].
      * left. now exists after.
      * right. exists before, after. simpl in H. now injection H.
Qed.

Lemma array_includes_iff (l : list string) (x : string) :
  array_includes l x = true <-> In x l.
Proof.
  unfold array_includes. rewrite existsb_exists. split.
  - intros [y [Hy Heq]]. apply String.eqb_eq in Heq. now subst.
  - intros H. exists x. split; [assumption | apply String.eqb_refl].
Qed.

(** ** Metrics *)

(** The cost is the priced sum of the two token counts for the two models
    of the table. *)
Lemma calculateCost_table (promptTokens completionTokens : float) :
  calculateCost promptTokens completionTokens "gpt-4o-mini"
    = (promptTokens * (0.15 / 1000000) + completionTokens * (0.6 / 1000000))%float /\
  calculateCost promptTokens completionTokens "text-embedding-3-small"
    = (promptTokens * (0.02 / 1000000) + completionTokens * 0)%float.
Proof. split; reflexivity. Qed.

(** A name that is neither in the table nor inherited from
    [Object.prototype] is priced as gpt-4o-mini. *)
Lemma calculateCost_fallback (promptTokens completionTokens : float) (model : string) :
  pricing model = Undefined ->
  calculateCost promptTokens completionTokens model
    = calculateCost promptTokens completionTokens "gpt-4o-mini".
Proof. intros H. unfold calculateCost. now rewrite H. Qed.

(** C7 (the code at the failing input): 1000 prompt and 500 completion
    tokens cost 0.00045 on gpt-4o-mini and on a name such as gpt-5 that
    the table lacks, but the name constructor, which the table lacks as
    well, reads the member inherited from Object.prototype instead of
    falling back, and the cost is NaN. *)
Theorem calculateCost_inherited_name :
  calculateCost 1000 500 "gpt-4o-mini" = 0.00045%float /\
  calculateCost 1000 500 "gpt-5" = 0.00045%float /\
  pricing "constructor" = Inherited /\
  calculateCost 1000 500 "constructor" = nan /\
  calculateCost 1000 500 "constructor" <> calculateCost 1000 500 "gpt-4o-mini".
Proof.
  repeat split; try reflexivity.
  intros H. vm_compute in H. discriminate H.
Qed.

(** C6: each score statistic is 0 on the empty candidate list, and on
    candidates whose scores are 0.9, 0.5 and 0.3 the top score is 0.9, the
    minimum score is 0.3 and the average score is the mean (0.9 + 0.5 + 0.3) / 3,
    which is within 0.00005 of 0.5667. *)
Theorem score_statistics (results : list MovieSearchResult) :
  map score results = [0.9%float; 0.5%float; 0.3%float] ->
  calculateTopScore [] = 0%float /\
  calculateAverageScore [] = 0%float /\
  calculateMinScore [] = 0%float /\
  calculateTopScore results = 0.9%float /\
  calculateMinScore results = 0.3%float /\
  calculateAverageScore results = ((0 + 0.9 + 0.5 + 0.3) / 3)%float /\
  PrimFloat.ltb (PrimFloat.abs (calculateAverageScore results - 0.5667)) 0.00005 = true.
Proof.
  intros H.
  destruct results as [|[i1 c1 s1] [|[i2 c2 s2] [|[i3 c3 s3] [|? ?]]]];
    simpl in H; try discriminate H.
  injection H as -> -> ->.
  repeat split; reflexivity.
Qed.

Lemma score_statistics_witness :
  calculateTopScore Scenario.matched = 0.9%float /\
  calculateMinScore Scenario.matched = 0.3%float /\
  calculateAverageScore Scenario.matched = ((0 + 0.9 + 0.5 + 0.3) / 3)%float.
Proof.
  destruct (score_statistics Scenario.matched eq_refl)
    as [_ [_ [_ [Htop [Hmin [Havg _]]]]]].
  exact (conj Htop (conj Hmin Havg)).
Defined.

(** ** The searchMovies action *)

Lemma fetchMovie_returned (ctx : ActionCtx) (result : VectorMatch) (movie : MovieSearchResult) :
  fetchMovie ctx result = Returned movie -> candidateOf ctx result movie.
Proof.
  unfold fetchMovie, candidateOf.
  destruct (getMovie ctx (_id result)) as [doc|e] eqn:Hdoc; [|discriminate].
  intros H. injection H as <-. simpl. repeat split. now exists doc.
Qed.

Lemma Promise_all_returned {A B : Type} (f : A -> Outcome B) (l : list A) (out : list B) :
  Promise_all (map f l) = Returned out -> Forall2 (fun x y => f x = Returned y) l out.
Proof.
  revert out; induction l as [|x l IH]; intros out; simpl.
  - intros H. injection H as <-. constructor.
  - destruct (f x) as [y|e] eqn:Hx; [|discriminate].
    destruct (Promise_all (map f l)) as [r|e]; [|discriminate].
    intros H. injection H as <-. constructor; auto.
Qed.

Lemma Promise_all_total {A B : Type} (f : A -> Outcome B) (g : A -> B) (l : list A) :
  (forall x, In x l -> f x = Returned (g x)) ->
  Promise_all (map f l) = Returned (map g l).
Proof.
  induction l as [|x l IH]; intros H; simpl.
  - reflexivity.
  - rewrite (H x (or_introl eq_refl)), IH; [reflexivity|].
    intros y Hy. apply H. now right.
Qed.

Lemma searchMovies_returned (ctx : ActionCtx) (args : SearchArgs) (movies : list MovieSearchResult) :
  searchMovies ctx args = Returned movies ->
  exists results,
    vectorSearch ctx (embedding args) (matchCount args) = Returned results /\
    Forall2 (candidateOf ctx) (retained args results) movies.
Proof.
  unfold searchMovies.
  destruct (vectorSearch ctx (embedding args) (matchCount args)) as [results|e];
    [|discriminate].
  intros H. exists results. split; [reflexivity|].
  apply Promise_all_returned in H.
  eapply Forall2_impl; [|exact H].
  intros r m. apply fetchMovie_returned.
Qed.

Lemma retained_scores (args : SearchArgs) (results : list VectorMatch) :
  Forall (fun r => PrimFloat.leb (matchThreshold args) (_score r) = true)
    (retained args results).
Proof.
  apply Forall_forall. intros r Hr. now apply filter_In in Hr.
Qed.

Lemma retained_length (args : SearchArgs) (results : list VectorMatch) :
  List.length (retained args results) <= List.length results.
Proof. apply filter_length_le. Qed.


(** C9: when the vector search returns and no document lookup of a retained
    match throws, searchMovies returns, whether or not a document is
    missing: it returns one candidate per retained match, in order, and the
    candidate of a match whose lookup is null has the id and the score of the
    match and the empty string as its content. *)
Theorem searchMovies_missing_document (ctx : ActionCtx) (args : SearchArgs)
    (results : list VectorMatch) :
  vectorSearch ctx (embedding args) (matchCount args) = Returned results ->
  (forall r, In r (retained args results) -> exists doc, getMovie ctx (_id r) = Returned doc) ->
  exists movies,
    searchMovies ctx args = Returned movies /\
    movies = map (fun r => mkMovie (_id r) (contentOf ctx (_id r)) (_score r))
               (retained args results) /\
    forall r, In r (retained args results) ->
      getMovie ctx (_id r) = Returned None ->
      In (mkMovie (_id r) "" (_score r)) movies.
Proof.
  intros Hsearch Hdocs.
  exists (map (fun r => mkMovie (_id r) (contentOf ctx (_id r)) (_score r))
            (retained args results)).
  split; [|split; [reflexivity|]].
  - unfold searchMovies. rewrite Hsearch.
    apply Promise_all_total. intros r Hr.
    destruct (Hdocs r Hr) as [doc Hdoc].
    unfold fetchMovie, contentOf. rewrite Hdoc. now destruct doc.
  - intros r Hr Hnull. apply in_map_iff. exists r. split; [|assumption].
    unfold contentOf. now rewrite Hnull.
Qed.

Lemma searchMovies_missing_document_witness :
  exists movies,
    searchMovies Scenario.ctx (searchArgs Scenario.vector) = Returned movies /\
    In (mkMovie "m2" "" 0.5%float) movies.
Proof.
  destruct (searchMovies_missing_document Scenario.ctx (searchArgs Scenario.vector)
              [ mkMatch "m1" 0.9%float; mkMatch "m2" 0.5%float;
                mkMatch "m3" 0.3%float; mkMatch "m4" 0.1%float ])
    as [movies [Hrun [_ Hmissing]]].
  - reflexivity.
  - intros r Hr. vm_compute in Hr.
    destruct Hr as [<-|[<-|[<-|[]]]]; eexists; reflexivity.
  - exists movies. split; [exact Hrun|].
    apply (Hmissing (mkMatch "m2" 0.5%float)).
    + vm_compute. right. left. reflexivity.
    + reflexivity.
Defined.

(** ** The origin policy *)

Lemma isOriginAllowed_false (origin : option string) (allowedOrigins : list string) :
  origin = None \/ (exists o, origin = Some o /\ ~ In o allowedOrigins) ->
  isOriginAllowed origin allowedOrigins = false.
Proof.
  intros [-> | [o [-> Hout]]]; simpl; [reflexivity|].
  destruct (truthy o); [|reflexivity].
  destruct (array_includes allowedOrigins o) eqn:Hin; [|reflexivity].
  apply array_includes_iff in Hin. contradiction.
Qed.

Lemma corsHeaders_disallowed (origin : option string) (env : Env) :
  isOriginAllowed origin (getAllowedOrigins env) = false ->
  header "Access-Control-Allow-Origin" (corsHeaders origin env) = Some "".
Proof.
  intros H. unfold corsHeaders. rewrite H. simpl. now destruct origin.
Qed.

(** C1 (as amended): a request whose Origin header is absent or not in the
    allow-list gets an empty Access-Control-Allow-Origin header and no
    pipeline event; its status is 403 for every method but OPTIONS, whose
    preflight response 204 is returned before the origin is checked. *)
Theorem origin_gate (w : World) (request : Request) (env : Env) :
  origin request = None \/
    (exists o, origin request = Some o /\ ~ In o (getAllowedOrigins env)) ->
  exists r,
    fetch w request env = ([], Responded r) /\
    header "Access-Control-Allow-Origin" (headers r) = Some "" /\
    status r = (if method request =? "OPTIONS" then 204 else 403).
Proof.
  intros H. apply isOriginAllowed_false in H.
  unfold fetch. destruct (method request =? "OPTIONS").
  - eexists. split; [reflexivity|]. split; [|reflexivity].
    now apply corsHeaders_disallowed.
  - rewrite H. eexists. split; [reflexivity|]. split; [|reflexivity].
    now apply corsHeaders_disallowed.
Qed.

Lemma origin_gate_witness :
  exists r,
    fetch Scenario.embeddingDown (mkRequest "POST" (Some "https://evil.example") (Returned Scenario.requestData))
      Scenario.env = ([], Responded r) /\
    header "Access-Control-Allow-Origin" (headers r) = Some "" /\
    status r = 403.
Proof.
  apply (origin_gate Scenario.embeddingDown
           (mkRequest "POST" (Some "https://evil.example") (Returned Scenario.requestData))
           Scenario.env).
  right. exists "https://evil.example". split; [reflexivity|].
  vm_compute. intros [H|[]]. discriminate H.
Defined.

(** C1 (as stated) fails on a preflight request: with no Origin header the
    handler answers OPTIONS with 204, not 403. *)
Lemma origin_gate_preflight_counterexample :
  origin Scenario.preflight = None /\
  statusOf (snd (fetch (Scenario.world None) Scenario.preflight Scenario.env)) = Some 204 /\
  ~ statusOf (snd (fetch (Scenario.world None) Scenario.preflight Scenario.env)) = Some 403.
Proof.
  repeat split. vm_compute. discriminate.
Qed.

(** ** Runs of the pipeline *)

Lemma fetch_post (w : World) (request : Request) (env : Env) :
  method request = "POST" ->
  isOriginAllowed (origin request) (getAllowedOrigins env) = true ->
  fetch w request env =
    match json request with
    | Thrown e => ([], Rejected e)
    | Returned requestData =>
        exec (pipeline w (corsHeaders (origin request) env) requestData)
    end.
Proof.
  intros Hmethod Horigin. unfold fetch. rewrite Hmethod, Horigin. reflexivity.
Qed.

Lemma or_empty (s : string) : (if truthy s then s else "") = s.
Proof. now destruct s. Qed.

Lemma responseObject_cases (generated : option string) (matchedResults : list MovieSearchResult) :
  let text := match generated with Some t => t | None => "" end in
  (includes text noMatchMarker = true /\
   responseObject generated matchedResults = ("", None, true)) \/
  (includes text noMatchMarker = false /\
   responseObject generated matchedResults = (text, Some matchedResults, false)).
Proof.
  unfold responseObject. destruct generated as [text|]; simpl.
  - destruct (includes text noMatchMarker); [left | right]; split; try reflexivity.
    now rewrite or_empty.
  - right. split; reflexivity.
Qed.

Section GenerationCallSucceeds.

Variables (w : World) (request : Request) (env : Env).
Variables (requestData : RequestData) (vector : list float) (others : list OpenAI.Embedding).
Variables (matchedResults : list MovieSearchResult).
Variables (response : OpenAI.ChatCompletion) (first : OpenAI.Choice) (rest : list OpenAI.Choice).

Hypothesis Hmethod : method request = "POST".
Hypothesis Horigin : isOriginAllowed (origin request) (getAllowedOrigins env) = true.
Hypothesis Hjson : json request = Returned requestData.
Hypothesis Hembedding :
  embeddings_create w (embeddingRequest requestData)
    = Returned (OpenAI.mkEmbeddingResponse (OpenAI.mkEmbedding vector :: others)).
Hypothesis Hsearch : convex_action w (searchArgs vector) = Returned matchedResults.
Hypothesis Hchat :
  chat_completions_create w (chatRequest requestData matchedResults) = Returned response.
Hypothesis Hchoices : OpenAI.choices response = first :: rest.

(** The response of a run whose three remote calls succeed. *)
Lemma generation_response :
  exists content movieRecommendations noMatchFromLLM,
    responseObject (OpenAI.message_content (OpenAI.message first)) matchedResults
      = (content, movieRecommendations, noMatchFromLLM) /\
    snd (fetch w request env)
      = Responded (mkResponse 200 (corsHeaders (origin request) env)
                     (SuccessBody movieRecommendations content noMatchFromLLM)).
Proof.
  rewrite (fetch_post _ _ _ Hmethod Horigin), Hjson.
  unfold embeddingRequest in Hembedding. unfold chatRequest in Hchat.
  run. rewrite Hembedding. run. rewrite Hsearch. run. rewrite Hchat. run.
  rewrite Hchoices. run.
  destruct (responseObject _ matchedResults) as [[content recs] noMatch].
  exists content, recs, noMatch. split; [reflexivity|].
  cbn [snd]. now rewrite or_empty.
Qed.

(** C2 (as amended): after a successful generation call the response is a
    200 whose noMatchFromLLM is true if and only if the generated text
    contains the marker Sorry, I don't know a movie at the moment (the
    opening of the sentinel sentence, not the full sentence); when it is
    true movieRecommendations is null, when it is false the full candidate
    list and the generated text are returned as they are, and
    movieRecommendations is null exactly when noMatchFromLLM is true. *)
Theorem no_match_detection :
  exists content movieRecommendations noMatchFromLLM,
    snd (fetch w request env)
      = Responded (mkResponse 200 (corsHeaders (origin request) env)
                     (SuccessBody movieRecommendations content noMatchFromLLM)) /\
    (noMatchFromLLM = true <-> Spec.occursIn noMatchMarker (generatedText first)) /\
    (noMatchFromLLM = true -> movieRecommendations = None) /\
    (noMatchFromLLM = false ->
       movieRecommendations = Some matchedResults /\ content = generatedText first) /\
    (movieRecommendations = None <-> noMatchFromLLM = true).
Proof.
  destruct generation_response as [content [recs [noMatch [Hobject Hrun]]]].
  exists content, recs, noMatch. split; [exact Hrun|].
  rewrite <- includes_iff. unfold generatedText.
  destruct (responseObject_cases (OpenAI.message_content (OpenAI.message first)) matchedResults)
    as [[Hin Hcase] | [Hin Hcase]];
    rewrite Hcase in Hobject; injection Hobject as <- <- <-; rewrite Hin;
    repeat split; intros; congruence.
Qed.

(** C10: when the generation call succeeds and the content of the message
    is absent or empty, the response is a 200 with noMatchFromLLM false, the
    full candidate list as movieRecommendations and the empty string as
    content. *)
Theorem empty_generation :
  OpenAI.message_content (OpenAI.message first) = None \/
    OpenAI.message_content (OpenAI.message first) = Some "" ->
  snd (fetch w request env)
    = Responded (mkResponse 200 (corsHeaders (origin request) env)
                   (SuccessBody (Some matchedResults) "" false)).
Proof.
  intros Hempty.
  destruct generation_response as [content [recs [noMatch [Hobject Hrun]]]].
  rewrite Hrun.
  destruct Hempty as [Hnone | Hnone]; rewrite Hnone in Hobject;
    vm_compute in Hobject; injection Hobject as <- <- <-; reflexivity.
Qed.

End GenerationCallSucceeds.

Lemma no_match_detection_witness :
  exists content,
    bodyOf (snd (fetch (Scenario.world (Some "Sorry, I don't know a movie at the moment, folks."))
                   Scenario.post Scenario.env))
      = Some (SuccessBody None content true).
Proof.
  destruct (no_match_detection
              (Scenario.world (Some "Sorry, I don't know a movie at the moment, folks."))
              Scenario.post Scenario.env Scenario.requestData Scenario.vector []
              Scenario.matched
              (Scenario.completion (Some "Sorry, I don't know a movie at the moment, folks."))
              (OpenAI.mkChoice
                 (OpenAI.mkMessage (Some "Sorry, I don't know a movie at the moment, folks.")))
              []
              eq_refl eq_refl eq_refl eq_refl eq_refl eq_refl eq_refl)
    as [content [recs [noMatch [Hrun [Hmarker [Hnull _]]]]]].
  assert (HnoMatch : noMatch = true).
  { apply Hmarker. exists "", ", folks.". reflexivity. }
  rewrite Hrun, (Hnull HnoMatch), HnoMatch. now exists content.
Defined.

Lemma empty_generation_witness :
  snd (fetch (Scenario.world None) Scenario.post Scenario.env)
    = Responded (mkResponse 200 (corsHeaders (origin Scenario.post) Scenario.env)
                   (SuccessBody (Some Scenario.matched) "" false)).
Proof.
  apply (empty_generation (Scenario.world None) Scenario.post Scenario.env
           Scenario.requestData Scenario.vector [] Scenario.matched
           (Scenario.completion None) (OpenAI.mkChoice (OpenAI.mkMessage None)) []
           eq_refl eq_refl eq_refl eq_refl eq_refl eq_refl eq_refl).
  left. reflexivity.
Defined.

(** C2 (as stated) fails when the model answers with the opening of the
    sentinel sentence only: the result is classified as a no-match although
    the generated text does not contain the full sentence. *)
Lemma no_match_full_sentence_counterexample :
  noMatchOf (snd (fetch (Scenario.world (Some "Sorry, I don't know a movie at the moment"))
                    Scenario.post Scenario.env)) = Some true /\
  ~ Spec.occursIn Spec.sentinelSentence "Sorry, I don't know a movie at the moment".
Proof.
  split; [reflexivity|].
  rewrite <- includes_iff. vm_compute. discriminate.
Qed.

(** ** Every run *)

(** A response with a success body is a 200 built from [responseObject]. *)
Lemma success_body_inversion (w : World) (request : Request) (env : Env) (r : Response)
    (movieRecommendations : option (list MovieSearchResult)) (content : string)
    (noMatchFromLLM : bool) :
  snd (fetch w request env) = Responded r ->
  body r = SuccessBody movieRecommendations content noMatchFromLLM ->
  status r = 200 /\
  exists generated matchedResults,
    responseObject generated matchedResults = (content, movieRecommendations, noMatchFromLLM).
Proof.
  intros Hrun Hbody. revert Hrun. unfold fetch.
  assert (Hdead : forall code hs error details,
             snd (@nil Event, Responded (mkResponse code hs (ErrorBody error details)))
               = Responded r ->
             status r = 200 /\
             exists generated matchedResults,
               responseObject generated matchedResults
                 = (content, movieRecommendations, noMatchFromLLM)).
  { intros code hs error details H. injection H as <-. discriminate Hbody. }
  destruct (method request =? "OPTIONS").
  { intros H. injection H as <-. discriminate Hbody. }
  destruct (negb (isOriginAllowed (origin request) (getAllowedOrigins env))); [apply Hdead|].
  destruct (negb (method request =? "POST")); [apply Hdead|].
  destruct (json request) as [requestData|e]; [|discriminate].
  run.
  destruct (embeddings_create w _) as [[[|[vector] others]]|e]; run; cbn [snd];
    try (intros H; injection H as <-; discriminate Hbody).
  destruct (convex_action w _) as [matchedResults|e]; run; cbn [snd];
    try (intros H; injection H as <-; discriminate Hbody).
  destruct (chat_completions_create w _) as [response|e]; run;
    [destruct (OpenAI.choices response) as [|first rest]; run|]; cbn [snd];
    try (intros H; injection H as <-; discriminate Hbody).
  match goal with
  | |- context [responseObject ?generated matchedResults] =>
      destruct (responseObject generated matchedResults)
        as [[content' recs'] noMatch'] eqn:Hobject
  end.
  cbn [snd]. intros H. injection H as <-. cbn [body status] in *.
  rewrite or_empty in Hbody. injection Hbody as -> -> ->.
  split; [reflexivity|]. eauto.
Qed.

(** C8: whenever a response is classified noMatchFromLLM = true it is a 200
    whose content is the empty string and whose movieRecommendations is
    null. *)
Theorem no_match_body (w : World) (request : Request) (env : Env) (r : Response)
    (movieRecommendations : option (list MovieSearchResult)) (content : string) :
  snd (fetch w request env) = Responded r ->
  body r = SuccessBody movieRecommendations content true ->
  status r = 200 /\ content = "" /\ movieRecommendations = None.
Proof.
  intros Hrun Hbody.
  destruct (success_body_inversion _ _ _ _ _ _ _ Hrun Hbody)
    as [Hstatus [generated [matchedResults Hobject]]].
  split; [exact Hstatus|].
  destruct (responseObject_cases generated matchedResults) as [[_ Hcase] | [_ Hcase]];
    rewrite Hcase in Hobject; now injection Hobject.
Qed.

Lemma no_match_body_witness :
  bodyOf (snd (fetch (Scenario.world (Some "Sorry, I don't know a movie at the moment. Lets try again."))
                 Scenario.post Scenario.env))
    = Some (SuccessBody None "" true) /\
  200 = 200 /\ "" = "" /\ @None (list MovieSearchResult) = None.
Proof.
  split; [reflexivity|].
  apply (no_match_body
           (Scenario.world (Some "Sorry, I don't know a movie at the moment. Lets try again."))
           Scenario.post Scenario.env
           (mkResponse 200 (corsHeaders (origin Scenario.post) Scenario.env)
              (SuccessBody None "" true))
           None ""); reflexivity.
Defined.

(** The embedding service is called once, with [embeddingRequest], in every
    run that reaches the pipeline. *)
Lemma pipeline_embeddingCalls (w : World) (hs : list (string * string))
    (requestData : RequestData) :
  embeddingCalls (fst (exec (pipeline w hs requestData))) = [embeddingRequest requestData].
Proof. all_runs; reflexivity. Qed.

(** [searchMovies] is only called with the arguments [searchArgs]. *)
Lemma pipeline_searchCalls (w : World) (hs : list (string * string))
    (requestData : RequestData) (args : SearchArgs) :
  In args (searchCalls (fst (exec (pipeline w hs requestData)))) ->
  exists embedding, args = searchArgs embedding.
Proof.
  all_runs; cbn [fst searchCalls In]; intros H;
    repeat (destruct H as [H|H]; [eauto|]); contradiction.
Qed.

Lemma fetch_searchCalls (w : World) (request : Request) (env : Env) (args : SearchArgs) :
  In args (searchCalls (fst (fetch w request env))) ->
  exists embedding, args = searchArgs embedding.
Proof.
  unfold fetch.
  destruct (method request =? "OPTIONS"); [intros []|].
  destruct (negb (isOriginAllowed (origin request) (getAllowedOrigins env))); [intros []|].
  destruct (negb (method request =? "POST")); [intros []|].
  destruct (json request) as [requestData|e]; [|intros []].
  apply pipeline_searchCalls.
Qed.

Lemma join_cons (sep x : string) (l : list string) :
  l <> [] -> join sep (x :: l) = x ++ sep ++ join sep l.
Proof. destruct l; [congruence | reflexivity]. Qed.

(** C5: for a request that is parsed, the handler sends one request to the
    embedding service, and its input is the available time, a newline, and
    the userResponses of the participants joined with newlines in
    participant order; with at least one participant this is the time and
    every userResponses joined with newlines. *)
Theorem embedding_text (w : World) (request : Request) (env : Env) (requestData : RequestData) :
  method request = "POST" ->
  isOriginAllowed (origin request) (getAllowedOrigins env) = true ->
  json request = Returned requestData ->
  exists params,
    embeddingCalls (fst (fetch w request env)) = [params] /\
    OpenAI.input params
      = time (movieSetUpPreferences requestData) ++ nl
          ++ join nl (map userResponses (peopleResponses requestData)) /\
    (peopleResponses requestData <> [] ->
     OpenAI.input params = Spec.embeddingInput requestData).
Proof.
  intros Hmethod Horigin Hjson.
  exists (embeddingRequest requestData).
  rewrite (fetch_post _ _ _ Hmethod Horigin), Hjson.
  split; [apply pipeline_embeddingCalls|]. split; [reflexivity|].
  intros Hpeople. unfold Spec.embeddingInput. rewrite join_cons; [reflexivity|].
  destruct (peopleResponses requestData); [congruence | discriminate].
Qed.

Lemma embedding_text_witness :
  exists params,
    embeddingCalls (fst (fetch (Scenario.world None) Scenario.post Scenario.env)) = [params] /\
    OpenAI.input params
      = "120 minutes" ++ nl ++ join nl ["I like action movies"; "I like comedies"] /\
    (peopleResponses Scenario.requestData <> [] ->
     OpenAI.input params = Spec.embeddingInput Scenario.requestData).
Proof.
  apply (embedding_text (Scenario.world None) Scenario.post Scenario.env Scenario.requestData);
    reflexivity.
Defined.

Lemma Forall2_Forall_r {A B : Type} (P : A -> Prop) (Q : B -> Prop) (R : A -> B -> Prop)
    (l : list A) (l' : list B) :
  (forall x y, P x -> R x y -> Q y) -> Forall P l -> Forall2 R l l' -> Forall Q l'.
Proof.
  intros HPQ HP HR. induction HR as [|x y l l' Hxy _ IH]; constructor.
  - apply (HPQ x); [now inversion HP | assumption].
  - apply IH. now inversion HP.
Qed.

(** C4: searchMovies asks the vector index for matchCount matches and
    returns one candidate per match whose score is at least matchThreshold,
    in order, with the id and the score of the match and the content of the
    document fetched by that id, so that no candidate is below the threshold
    and there are no more candidates than matches; and every call of
    searchMovies that the pipeline makes has matchThreshold 0.2 and
    matchCount 6. *)
Theorem similarity_retrieval (ctx : ActionCtx) (args : SearchArgs)
    (movies : list MovieSearchResult)
    (w : World) (request : Request) (env : Env) (call : SearchArgs) :
  searchMovies ctx args = Returned movies ->
  In call (searchCalls (fst (fetch w request env))) ->
  (exists results,
     vectorSearch ctx (embedding args) (matchCount args) = Returned results /\
     Forall2 (candidateOf ctx) (retained args results) movies /\
     Forall (fun movie => PrimFloat.leb (matchThreshold args) (score movie) = true) movies /\
     List.length movies <= List.length results) /\
  matchThreshold call = 0.2%float /\
  matchCount call = 6%float.
Proof.
  intros Hreturned Hcall. split.
  - destruct (searchMovies_returned _ _ _ Hreturned) as [results [Hsearch Hmovies]].
    exists results. split; [exact Hsearch|]. split; [exact Hmovies|]. split.
    + eapply Forall2_Forall_r; [|apply (retained_scores args results)|exact Hmovies].
      intros r m Hr [_ [Hscore _]]. rewrite Hscore. exact Hr.
    + rewrite <- (Forall2_length Hmovies). apply retained_length.
  - destruct (fetch_searchCalls _ _ _ _ Hcall) as [vector ->].
    split; reflexivity.
Qed.

Lemma similarity_retrieval_witness :
  (exists results,
     vectorSearch Scenario.ctx Scenario.vector 6%float = Returned results /\
     Forall2 (candidateOf Scenario.ctx) (retained (searchArgs Scenario.vector) results)
       Scenario.matched /\
     Forall (fun movie => PrimFloat.leb 0.2%float (score movie) = true) Scenario.matched /\
     List.length Scenario.matched <= List.length results) /\
  matchThreshold (searchArgs Scenario.vector) = 0.2%float /\
  matchCount (searchArgs Scenario.vector) = 6%float.
Proof.
  apply (similarity_retrieval Scenario.ctx (searchArgs Scenario.vector) Scenario.matched
           (Scenario.world None) Scenario.post Scenario.env (searchArgs Scenario.vector)).
  - reflexivity.
  - vm_compute. left. reflexivity.
Defined.

(** ** Failures of the remote calls *)

Section RemoteCallThrows.

Variables (w : World) (request : Request) (env : Env) (requestData : RequestData).
Variable error : JsError.

Hypothesis Hmethod : method request = "POST".
Hypothesis Horigin : isOriginAllowed (origin request) (getAllowedOrigins env) = true.
Hypothesis Hjson : json request = Returned requestData.

Lemma embedding_failure :
  embeddings_create w (embeddingRequest requestData) = Thrown error ->
  failedWith (fetch w request env) (corsHeaders (origin request) env)
    "Error creating embeddings for userResponses" error None.
Proof.
  intros Hembedding. unfold failedWith, embeddingRequest in *.
  rewrite (fetch_post _ _ _ Hmethod Horigin), Hjson.
  run. rewrite Hembedding. run. repeat split.
Qed.

Lemma search_failure (vector : list float) (others : list OpenAI.Embedding) :
  embeddings_create w (embeddingRequest requestData)
    = Returned (OpenAI.mkEmbeddingResponse (OpenAI.mkEmbedding vector :: others)) ->
  convex_action w (searchArgs vector) = Thrown error ->
  failedWith (fetch w request env) (corsHeaders (origin request) env)
    "Error matching documents in Convex" error None.
Proof.
  intros Hembedding Hsearch. unfold failedWith, embeddingRequest in *.
  rewrite (fetch_post _ _ _ Hmethod Horigin), Hjson.
  run. rewrite Hembedding. run. rewrite Hsearch. run. repeat split.
Qed.

Lemma generation_failure (vector : list float) (others : list OpenAI.Embedding)
    (matchedResults : list MovieSearchResult) :
  embeddings_create w (embeddingRequest requestData)
    = Returned (OpenAI.mkEmbeddingResponse (OpenAI.mkEmbedding vector :: others)) ->
  convex_action w (searchArgs vector) = Returned matchedResults ->
  chat_completions_create w (chatRequest requestData matchedResults) = Thrown error ->
  exists totalCost,
    failedWith (fetch w request env) (corsHeaders (origin request) env)
      "Error creating chat completion" error
      (Some (Opik.mkMetadata 0%float totalCost false (Some (message error)))).
Proof.
  intros Hembedding Hsearch Hchat. unfold failedWith, embeddingRequest, chatRequest in *.
  rewrite (fetch_post _ _ _ Hmethod Horigin), Hjson.
  run. rewrite Hembedding. run. rewrite Hsearch. run. rewrite Hchat. run.
  eexists. repeat split.
Qed.

End RemoteCallThrows.

(** C3 (the code at the failing input): when the embedding call or the
    vector search throws, the handler answers with one 500 that names the
    stage and ends and flushes the trace once, but the only update of the
    trace carries no metadata, hence no success:false; the failure of the
    generation call does record success:false. *)
Theorem upstream_failure_trace :
  let embeddingRun := fetch Scenario.embeddingDown Scenario.post Scenario.env in
  let searchRun := fetch Scenario.searchDown Scenario.post Scenario.env in
  let generationRun := fetch Scenario.generationDown Scenario.post Scenario.env in
  (bodyOf (snd embeddingRun)
     = Some (ErrorBody "Error creating embeddings for userResponses" (Some "Connection error.")) /\
   statusOf (snd embeddingRun) = Some 500 /\
   countEvents isTraceEnd (fst embeddingRun) = 1 /\
   countEvents isFlush (fst embeddingRun) = 1 /\
   traceMetadata (fst embeddingRun) = [None]) /\
  (bodyOf (snd searchRun)
     = Some (ErrorBody "Error matching documents in Convex" (Some "Connection error.")) /\
   statusOf (snd searchRun) = Some 500 /\
   countEvents isTraceEnd (fst searchRun) = 1 /\
   countEvents isFlush (fst searchRun) = 1 /\
   traceMetadata (fst searchRun) = [None]) /\
  (bodyOf (snd generationRun)
     = Some (ErrorBody "Error creating chat completion" (Some "Connection error.")) /\
   statusOf (snd generationRun) = Some 500 /\
   countEvents isTraceEnd (fst generationRun) = 1 /\
   countEvents isFlush (fst generationRun) = 1 /\
   map (option_map Opik.success) (traceMetadata (fst generationRun)) = [Some false]).
Proof. repeat split. Qed.

(* ------------------------------------------------------------------ *)
(** * Further properties of the handler, the action and the metrics *)

Import Reading.

(** ** The ways a call of the handler ends *)

(** The gates of the handler, in the order in which they are checked. *)
Lemma fetch_cases (w : World) (request : Request) (env : Env) :
  let hs := corsHeaders (origin request) env in
  let allowed := isOriginAllowed (origin request) (getAllowedOrigins env) in
  (method request = "OPTIONS" /\
   fetch w request env = ([], Responded (mkResponse 204 hs NoBody))) \/
  (method request <> "OPTIONS" /\ allowed = false /\
   fetch w request env
     = ([], Responded (mkResponse 403 hs (ErrorBody "Origin not allowed" None)))) \/
  (method request <> "OPTIONS" /\ allowed = true /\ method request <> "POST" /\
   fetch w request env
     = ([], Responded (mkResponse 405 hs
                         (ErrorBody ("Method " ++ method request ++ " not allowed") None)))) \/
  (method request = "POST" /\ allowed = true /\
   exists e, json request = Thrown e /\ fetch w request env = ([], Rejected e)) \/
  (method request = "POST" /\ allowed = true /\
   exists requestData,
     json request = Returned requestData /\
     fetch w request env = exec (pipeline w hs requestData)).
Proof.
  intros hs allowed. subst hs allowed. unfold fetch.
  destruct (String.eqb_spec (method request) "OPTIONS") as [Hoptions|Hoptions].
  { left. split; [assumption | reflexivity]. }
  right.
  destruct (isOriginAllowed (origin request) (getAllowedOrigins env)).
  2:{ left. repeat split; assumption. }
  right.
  destruct (String.eqb_spec (method request) "POST") as [Hpost|Hpost].
  2:{ left. repeat split; assumption. }
  right.
  destruct (json request) as [requestData|e].
  - right. repeat split; try assumption. now exists requestData.
  - left. repeat split; try assumption. now exists e.
Qed.

(** The pipeline either answers 200 after its three calls returned, or
    answers the 500 of the stage that failed, having made no later call. *)
Lemma pipeline_outcome (w : World) (hs : list (string * string)) (requestData : RequestData) :
  (exists vector matchedResults response first content movieRecommendations noMatchFromLLM,
     AllCallsReturn w requestData vector matchedResults response first /\
     responseObject (OpenAI.message_content (OpenAI.message first)) matchedResults
       = (content, movieRecommendations, noMatchFromLLM) /\
     snd (exec (pipeline w hs requestData))
       = Responded (mkResponse 200 hs
                      (SuccessBody movieRecommendations content noMatchFromLLM)) /\
     remoteCalls (fst (exec (pipeline w hs requestData)))
       = [CallEmbedding; CallSearch; CallGeneration]) \/
  (exists label error calls,
     StageFails w requestData label error calls /\
     snd (exec (pipeline w hs requestData))
       = Responded (mkResponse 500 hs (ErrorBody label (Some (message error)))) /\
     remoteCalls (fst (exec (pipeline w hs requestData))) = calls).
Proof.
  run.
  destruct (embeddings_create w (embeddingParams _ _))
    as [[[|[vector] others]]|e] eqn:Hembedding; run.
  - right. do 3 eexists. split; [apply EmbeddingEmpty; exact Hembedding|].
    split; reflexivity.
  - destruct (convex_action w (searchArgs vector)) as [matchedResults|e] eqn:Hsearch; run.
    + destruct (chat_completions_create w (chatParams _ _ matchedResults))
        as [response|e] eqn:Hchat; run.
      * destruct (OpenAI.choices response) as [|first rest] eqn:Hchoices; run.
        -- right. do 3 eexists.
           split; [eapply GenerationEmpty; eassumption|]. split; reflexivity.
        -- left.
           destruct (responseObject (OpenAI.message_content (OpenAI.message first))
                       matchedResults) as [[content recs] noMatch] eqn:Hobject.
           exists vector, matchedResults, response, first, content, recs, noMatch.
           split; [|split; [exact Hobject|]].
           ++ constructor; eauto.
           ++ cbn [snd fst]. rewrite or_empty. split; reflexivity.
      * right. do 3 eexists.
        split; [eapply GenerationThrows; eassumption|]. split; reflexivity.
    + right. do 3 eexists.
      split; [eapply SearchThrows; eassumption|]. split; reflexivity.
  - right. do 3 eexists. split; [apply EmbeddingThrows; exact Hembedding|].
    split; reflexivity.
Qed.

(** X1: every OPTIONS request, whatever its origin, is answered 204 with no
    body and the CORS headers, and nothing is traced or called. *)
Theorem preflight_response (w : World) (request : Request) (env : Env) :
  method request = "OPTIONS" ->
  fetch w request env
    = ([], Responded (mkResponse 204 (corsHeaders (origin request) env) NoBody)).
Proof.
  intros Hmethod.
  destruct (fetch_cases w request env) as [[_ H]|[[H _]|[[H _]|[[H _]|[H _]]]]];
    [exact H | congruence | congruence | | ]; rewrite Hmethod in H; discriminate H.
Qed.

Lemma preflight_response_witness :
  fetch Scenario.embeddingDown Scenario.preflight Cases.configured
    = ([], Responded (mkResponse 204 (corsHeaders None Cases.configured) NoBody)).
Proof.
  apply (preflight_response Scenario.embeddingDown Scenario.preflight Cases.configured).
  reflexivity.
Defined.

(** X2: a request from an allowed origin whose method is neither OPTIONS
    nor POST is answered 405 with an error that names the method, and
    nothing is traced or called. *)
Theorem method_not_allowed (w : World) (request : Request) (env : Env) :
  method request <> "OPTIONS" ->
  method request <> "POST" ->
  isOriginAllowed (origin request) (getAllowedOrigins env) = true ->
  fetch w request env
    = ([], Responded (mkResponse 405 (corsHeaders (origin request) env)
                        (ErrorBody ("Method " ++ method request ++ " not allowed") None))).
Proof.
  intros Hoptions Hpost Hallowed.
  destruct (fetch_cases w request env)
    as [[H _]|[[_ [H _]]|[[_ [_ [_ H]]]|[[H _]|[H _]]]]];
    try contradiction; try congruence.
Qed.

Lemma method_not_allowed_witness :
  fetch (Scenario.world None)
    (mkRequest "GET" (Some "http://localhost:5173") (Thrown Scenario.boom)) Scenario.env
    = ([], Responded (mkResponse 405 (corsHeaders (Some "http://localhost:5173") Scenario.env)
                        (ErrorBody "Method GET not allowed" None))).
Proof.
  apply (method_not_allowed (Scenario.world None)
           (mkRequest "GET" (Some "http://localhost:5173") (Thrown Scenario.boom))
           Scenario.env).
  - discriminate.
  - discriminate.
  - reflexivity.
Defined.


(** The labels of the three [catch] blocks. *)
Lemma StageFails_label (w : World) (requestData : RequestData) (label : string)
    (error : JsError) (calls : list RemoteCall) :
  StageFails w requestData label error calls ->
  In label [ "Error creating embeddings for userResponses";
             "Error matching documents in Convex";
             "Error creating chat completion" ] /\
  exists n, calls = firstn (S n) [CallEmbedding; CallSearch; CallGeneration].
Proof.
  intros []; (split; [simpl; tauto|]);
    [exists 0 | exists 0 | exists 1 | exists 2 | exists 2]; reflexivity.
Qed.

(** X4: every response carries the five CORS headers computed from the
    origin of the request; the value of Access-Control-Allow-Origin is
    either empty or the origin of the request, and the latter only for an
    origin of the allow-list. *)
Theorem response_headers (w : World) (request : Request) (env : Env) (r : Response) :
  snd (fetch w request env) = Responded r ->
  headers r = corsHeaders (origin request) env /\
  (exists value,
     header "Access-Control-Allow-Origin" (headers r) = Some value /\
     (value = "" \/ (origin request = Some value /\ In value (getAllowedOrigins env)))) /\
  header "Access-Control-Allow-Methods" (headers r) = Some "POST, OPTIONS" /\
  header "Access-Control-Allow-Headers" (headers r) = Some "Content-Type, Authorization" /\
  header "Access-Control-Allow-Credentials" (headers r) = Some "true" /\
  header "Content-Type" (headers r) = Some "application/json".
Proof.
  intros Hrun.
  assert (Hheaders : headers r = corsHeaders (origin request) env).
  { destruct (fetch_cases w request env)
      as [[_ H]|[[_ [_ H]]|[[_ [_ [_ H]]]|[[_ [_ [e [_ H]]]]|[_ [_ [d [_ H]]]]]]]];
      rewrite H in Hrun; cbn [snd] in Hrun;
      try discriminate Hrun; try (now injection Hrun as <-).
    destruct (pipeline_outcome w (corsHeaders (origin request) env) d)
      as [[v [m [rs [f [c [recs [n [_ [_ [Hp _]]]]]]]]]] | [l [err [calls [_ [Hp _]]]]]];
      rewrite Hp in Hrun; now injection Hrun as <-. }
  rewrite Hheaders. split; [reflexivity|]. split; [|repeat split].
  unfold corsHeaders. cbn [header]. simpl (_ =? _).
  destruct (origin request) as [o|]; [|exists ""; auto].
  destruct (isOriginAllowed (Some o) (getAllowedOrigins env)) eqn:Hallowed;
    [|exists ""; auto].
  cbn in Hallowed. destruct (truthy o); [|discriminate Hallowed].
  exists o. split; [reflexivity|]. right. split; [reflexivity|].
  now apply array_includes_iff.
Qed.

Lemma response_headers_witness :
  header "Access-Control-Allow-Origin"
    (headers (mkResponse 200 (corsHeaders (origin Scenario.post) Scenario.env)
                (SuccessBody (Some Scenario.matched) "" false)))
    = Some "http://localhost:5173".
Proof.
  destruct (response_headers (Scenario.world None) Scenario.post Scenario.env
              (mkResponse 200 (corsHeaders (origin Scenario.post) Scenario.env)
                 (SuccessBody (Some Scenario.matched) "" false)) eq_refl)
    as [Hheaders _].
  rewrite Hheaders. reflexivity.
Defined.

(** X5: the status of a response fixes the shape of its body: 204 has no
    body, 403 and 405 have an error without details, 200 has the success
    payload, and 500 has the label of one of the three stages with the
    details of the error; there is no other status, so a response is never
    a mix of an error and recommendations. *)
Theorem response_shape (w : World) (request : Request) (env : Env) (r : Response) :
  snd (fetch w request env) = Responded r ->
  (status r = 204 /\ body r = NoBody) \/
  (status r = 403 /\ body r = ErrorBody "Origin not allowed" None) \/
  (status r = 405 /\
   body r = ErrorBody ("Method " ++ method request ++ " not allowed") None) \/
  (status r = 200 /\
   exists movieRecommendations content noMatchFromLLM,
     body r = SuccessBody movieRecommendations content noMatchFromLLM) \/
  (status r = 500 /\
   exists label details,
     body r = ErrorBody label (Some details) /\
     In label [ "Error creating embeddings for userResponses";
                "Error matching documents in Convex";
                "Error creating chat completion" ]).
Proof.
  intros Hrun.
  destruct (fetch_cases w request env)
    as [[_ H]|[[_ [_ H]]|[[_ [_ [_ H]]]|[[_ [_ [e [_ H]]]]|[_ [_ [d [_ H]]]]]]]];
    rewrite H in Hrun; cbn [snd] in Hrun; try discriminate Hrun.
  - injection Hrun as <-. left. split; reflexivity.
  - injection Hrun as <-. right. left. split; reflexivity.
  - injection Hrun as <-. right. right. left. split; reflexivity.
  - destruct (pipeline_outcome w (corsHeaders (origin request) env) d)
      as [[v [m [rs [f [c [recs [n [_ [_ [Hp _]]]]]]]]]] | [l [err [calls [Hfails [Hp _]]]]]];
      rewrite Hp in Hrun; injection Hrun as <-.
    + right. right. right. left. split; [reflexivity|]. now exists recs, c, n.
    + right. right. right. right. split; [reflexivity|].
      exists l, (message err). split; [reflexivity|].
      apply (StageFails_label _ _ _ _ _ Hfails).
Qed.

Lemma response_shape_witness :
  exists movieRecommendations content noMatchFromLLM,
    SuccessBody (Some Scenario.matched) "" false
      = SuccessBody movieRecommendations content noMatchFromLLM.
Proof.
  destruct (response_shape (Scenario.world None) Scenario.post Scenario.env
              (mkResponse 200 (corsHeaders (origin Scenario.post) Scenario.env)
                 (SuccessBody (Some Scenario.matched) "" false)) eq_refl)
    as [[H _]|[[H _]|[[H _]|[[_ H]|[H _]]]]]; try discriminate H.
  exact H.
Defined.

(** X6: no call is retried and no stage is skipped: the remote calls of a
    run are the first calls of embedding, search, generation, in that
    order, each made at most once, and a 200 is answered only after all
    three. *)
Theorem remote_calls_in_order (w : World) (request : Request) (env : Env) :
  (exists n,
     remoteCalls (fst (fetch w request env))
       = firstn n [CallEmbedding; CallSearch; CallGeneration]) /\
  (statusOf (snd (fetch w request env)) = Some 200 ->
   remoteCalls (fst (fetch w request env)) = [CallEmbedding; CallSearch; CallGeneration]).
Proof.
  destruct (fetch_cases w request env)
    as [[_ H]|[[_ [_ H]]|[[_ [_ [_ H]]]|[[_ [_ [e [_ H]]]]|[_ [_ [d [_ H]]]]]]]];
    rewrite H; cbn [fst snd statusOf status];
    try (split; [now exists 0 | discriminate]).
  destruct (pipeline_outcome w (corsHeaders (origin request) env) d)
    as [[v [m [rs [f [c [recs [n [_ [_ [Hp Hcalls]]]]]]]]]] | [l [err [calls [Hfails [Hp Hcalls]]]]]];
    rewrite Hp, Hcalls; cbn [statusOf status].
  - split; [now exists 3 | reflexivity].
  - split; [|discriminate].
    destruct (StageFails_label _ _ _ _ _ Hfails) as [_ [n Hn]]. now exists (S n).
Qed.

Lemma remote_calls_in_order_witness :
  remoteCalls (fst (fetch (Scenario.world None) Scenario.post Scenario.env))
    = [CallEmbedding; CallSearch; CallGeneration].
Proof.
  apply (remote_calls_in_order (Scenario.world None) Scenario.post Scenario.env).
  reflexivity.
Defined.

(** X7: a stage that fails ends the request at once: when the embedding
    call throws or returns no vector, when the search throws, or when the
    generation call throws or returns no choice, the response is the 500
    with the label of that stage and the message of the error as details,
    no later remote call is made, and the trace is ended once and flushed
    once. *)
Theorem fail_fast (w : World) (request : Request) (env : Env) (requestData : RequestData)
    (label : string) (error : JsError) (calls : list RemoteCall) :
  method request = "POST" ->
  isOriginAllowed (origin request) (getAllowedOrigins env) = true ->
  json request = Returned requestData ->
  StageFails w requestData label error calls ->
  snd (fetch w request env)
    = Responded (mkResponse 500 (corsHeaders (origin request) env)
                   (ErrorBody label (Some (message error)))) /\
  remoteCalls (fst (fetch w request env)) = calls /\
  countEvents isTraceEnd (fst (fetch w request env)) = 1 /\
  countEvents isFlush (fst (fetch w request env)) = 1.
Proof.
  intros Hmethod Hallowed Hjson Hfails.
  rewrite (fetch_post _ _ _ Hmethod Hallowed), Hjson.
  destruct Hfails as [e He | He | v o e He Hs | v o m e He Hs Hc | v o m rs He Hs Hc Hch];
    unfold embeddingRequest, chatRequest in *; run; rewrite He; run; try (rewrite Hs; run); try (rewrite Hc; run);
    try (rewrite Hch; run); repeat split.
Qed.

Lemma fail_fast_witness :
  snd (fetch Cases.noVector Scenario.post Scenario.env)
    = Responded (mkResponse 500 (corsHeaders (origin Scenario.post) Scenario.env)
                   (ErrorBody "Error creating embeddings for userResponses"
                      (Some "Cannot read properties of undefined (reading 'embedding')"))) /\
  remoteCalls (fst (fetch Cases.noVector Scenario.post Scenario.env)) = [CallEmbedding] /\
  countEvents isTraceEnd (fst (fetch Cases.noVector Scenario.post Scenario.env)) = 1 /\
  countEvents isFlush (fst (fetch Cases.noVector Scenario.post Scenario.env)) = 1.
Proof.
  apply (fail_fast Cases.noVector Scenario.post Scenario.env Scenario.requestData
           "Error creating embeddings for userResponses" (typeError "embedding")
           [CallEmbedding]); try reflexivity.
  apply EmbeddingEmpty. reflexivity.
Defined.

(** X8: a 200 is answered only to a POST from an allowed origin whose body
    was read and for which the embedding, the search and the generation
    call all returned; its body is built from the candidates that the
    search returned and the first choice of the completion. *)
Theorem success_requires_all_calls (w : World) (request : Request) (env : Env)
    (r : Response) :
  snd (fetch w request env) = Responded r ->
  status r = 200 ->
  method request = "POST" /\
  isOriginAllowed (origin request) (getAllowedOrigins env) = true /\
  exists requestData vector matchedResults response first
         content movieRecommendations noMatchFromLLM,
    json request = Returned requestData /\
    AllCallsReturn w requestData vector matchedResults response first /\
    responseObject (OpenAI.message_content (OpenAI.message first)) matchedResults
      = (content, movieRecommendations, noMatchFromLLM) /\
    body r = SuccessBody movieRecommendations content noMatchFromLLM.
Proof.
  intros Hrun Hstatus.
  destruct (fetch_cases w request env)
    as [[_ H]|[[_ [_ H]]|[[_ [_ [_ H]]]|[[_ [_ [e [_ H]]]]|[Hm [Ha [d [Hj H]]]]]]]];
    rewrite H in Hrun; cbn [snd] in Hrun; try discriminate Hrun;
    try (injection Hrun as <-; discriminate Hstatus).
  destruct (pipeline_outcome w (corsHeaders (origin request) env) d)
    as [[v [m [rs [f [c [recs [n [Hall [Hobject [Hp _]]]]]]]]]] | [l [err [calls [_ [Hp _]]]]]];
    rewrite Hp in Hrun; injection Hrun as <-; [|discriminate Hstatus].
  split; [exact Hm|]. split; [exact Ha|].
  exists d, v, m, rs, f, c, recs, n. auto.
Qed.

Lemma success_requires_all_calls_witness :
  exists requestData vector matchedResults response first
         content movieRecommendations noMatchFromLLM,
    json Scenario.post = Returned requestData /\
    AllCallsReturn (Scenario.world None) requestData vector matchedResults response first /\
    responseObject (OpenAI.message_content (OpenAI.message first)) matchedResults
      = (content, movieRecommendations, noMatchFromLLM) /\
    SuccessBody (Some Scenario.matched) "" false
      = SuccessBody movieRecommendations content noMatchFromLLM.
Proof.
  apply (success_requires_all_calls (Scenario.world None) Scenario.post Scenario.env
           (mkResponse 200 (corsHeaders (origin Scenario.post) Scenario.env)
              (SuccessBody (Some Scenario.matched) "" false)));
    reflexivity.
Defined.

(** ** The trace of a run *)






(** X11: the trace exists only for requests that reach the pipeline: a run
    records nothing at all unless the request is a POST from an allowed
    origin whose body was read. *)
Theorem no_trace_before_pipeline (w : World) (request : Request) (env : Env) :
  fst (fetch w request env) <> [] ->
  method request = "POST" /\
  isOriginAllowed (origin request) (getAllowedOrigins env) = true /\
  exists requestData, json request = Returned requestData.
Proof.
  intros Hlog.
  destruct (fetch_cases w request env)
    as [[_ H]|[[_ [_ H]]|[[_ [_ [_ H]]]|[[_ [_ [e [_ H]]]]|[Hm [Ha [d [Hj H]]]]]]]];
    try (rewrite H in Hlog; now contradiction Hlog).
  eauto.
Qed.

Lemma no_trace_before_pipeline_witness :
  method Scenario.post = "POST" /\
  isOriginAllowed (origin Scenario.post) (getAllowedOrigins Scenario.env) = true /\
  exists requestData, json Scenario.post = Returned requestData.
Proof.
  apply (no_trace_before_pipeline Scenario.embeddingDown Scenario.post Scenario.env).
  vm_compute. discriminate.
Defined.

Lemma pipeline_success_flag (w : World) (hs : list (string * string))
    (requestData : RequestData) (metadata : Opik.TraceMetadata) :
  lastMetadata (fst (exec (pipeline w hs requestData))) = Some metadata ->
  (Opik.success metadata = true <->
   statusOf (snd (exec (pipeline w hs requestData))) = Some 200) /\
  (Opik.success metadata = true <-> Opik.errorMessage metadata = None).
Proof.
  all_runs; cbn [fst snd statusOf status]; unfold lastMetadata;
    cbn [traceMetadata last]; intros H; try discriminate H;
    injection H as <-; cbn [Opik.success Opik.errorMessage];
    repeat split; intros; congruence.
Qed.

(** X12: the success flag of the trace agrees with the response: whenever
    the trace carries metadata, its success is true exactly when the
    response is the 200, and it carries an error message exactly when
    success is false. *)
Theorem success_flag_matches_status (w : World) (request : Request) (env : Env)
    (metadata : Opik.TraceMetadata) :
  lastMetadata (fst (fetch w request env)) = Some metadata ->
  (Opik.success metadata = true <-> statusOf (snd (fetch w request env)) = Some 200) /\
  (Opik.success metadata = true <-> Opik.errorMessage metadata = None).
Proof.
  destruct (fetch_cases w request env)
    as [[_ H]|[[_ [_ H]]|[[_ [_ [_ H]]]|[[_ [_ [e [_ H]]]]|[_ [_ [d [_ H]]]]]]]];
    rewrite H; try discriminate.
  apply pipeline_success_flag.
Qed.

Lemma success_flag_matches_status_witness :
  (false = true <->
   statusOf (snd (fetch Scenario.generationDown Scenario.post Scenario.env)) = Some 200) /\
  (false = true <-> Some "Connection error." = @None string).
Proof.
  apply (success_flag_matches_status Scenario.generationDown Scenario.post Scenario.env
           (Opik.mkMetadata 0%float
              (0 + calculateCost (of_nat 12) 0 "text-embedding-3-small")%float
              false (Some "Connection error."))).
  reflexivity.
Defined.

(** ** The candidates in the response and in the prompt *)

(** X13: on a deployment whose action is searchMovies, the
    movieRecommendations of a 200 are what the action returned for the
    handler's arguments: one candidate per match of the index with a score
    of at least 0.2, so no recommendation is below the threshold. *)
Theorem recommendations_above_threshold (w : World) (request : Request) (env : Env)
    (ctx : ActionCtx) (r : Response) (recommendations : list MovieSearchResult)
    (content : string) (noMatchFromLLM : bool) :
  (forall a, convex_action w a = searchMovies ctx a) ->
  snd (fetch w request env) = Responded r ->
  body r = SuccessBody (Some recommendations) content noMatchFromLLM ->
  Forall (fun movie => PrimFloat.leb 0.2%float (score movie) = true) recommendations /\
  exists vector results,
    vectorSearch ctx vector 6%float = Returned results /\
    Forall2 (candidateOf ctx) (retained (searchArgs vector) results) recommendations.
Proof.
  intros Hdeployed Hrun Hbody.
  destruct (fetch_cases w request env)
    as [[_ H]|[[_ [_ H]]|[[_ [_ [_ H]]]|[[_ [_ [e [_ H]]]]|[_ [_ [d [_ H]]]]]]]];
    rewrite H in Hrun; cbn [snd] in Hrun; try discriminate Hrun;
    try (injection Hrun as <-; discriminate Hbody).
  destruct (pipeline_outcome w (corsHeaders (origin request) env) d)
    as [[v [m [rs [f [c [recs [n [Hall [Hobject [Hp _]]]]]]]]]] | [l [err [calls [_ [Hp _]]]]]];
    rewrite Hp in Hrun; injection Hrun as <-; [|discriminate Hbody].
  cbn [body] in Hbody. injection Hbody as -> -> ->.
  destruct (responseObject_cases (OpenAI.message_content (OpenAI.message f)) m)
    as [[_ Hcase] | [_ Hcase]]; rewrite Hcase in Hobject; [discriminate Hobject|].
  injection Hobject as _ <-.
  destruct Hall as [_ Hsearch _ _]. rewrite Hdeployed in Hsearch.
  destruct (searchMovies_returned _ _ _ Hsearch) as [results [Hindex Hmovies]].
  split; [|now exists v, results].
  eapply Forall2_Forall_r; [|apply (retained_scores (searchArgs v) results)|exact Hmovies].
  intros x y Hx [_ [Hscore _]]. rewrite Hscore. exact Hx.
Qed.

Lemma recommendations_above_threshold_witness :
  Forall (fun movie => PrimFloat.leb 0.2%float (score movie) = true) Scenario.matched /\
  exists vector results,
    vectorSearch Scenario.ctx vector 6%float = Returned results /\
    Forall2 (candidateOf Scenario.ctx) (retained (searchArgs vector) results) Scenario.matched.
Proof.
  apply (recommendations_above_threshold (Scenario.world None) Scenario.post Scenario.env
           Scenario.ctx
           (mkResponse 200 (corsHeaders (origin Scenario.post) Scenario.env)
              (SuccessBody (Some Scenario.matched) "" false))
           Scenario.matched "" false).
  - intros a. reflexivity.
  - reflexivity.
  - reflexivity.
Defined.

Lemma append_assoc (a b c : string) : (a ++ b) ++ c = a ++ b ++ c.
Proof. induction a as [|x a IH]; simpl; [reflexivity | now rewrite IH]. Qed.

Lemma append_nil_r (a : string) : a ++ "" = a.
Proof. induction a as [|x a IH]; simpl; [reflexivity | now rewrite IH]. Qed.

Lemma occursIn_app_r (x a s : string) : Spec.occursIn x s -> Spec.occursIn x (a ++ s).
Proof.
  intros [before [after ->]]. exists (a ++ before), after. now rewrite append_assoc.
Qed.

Lemma occursIn_app_l (x s b : string) : Spec.occursIn x s -> Spec.occursIn x (s ++ b).
Proof.
  intros [before [after ->]]. exists before, (after ++ b).
  now rewrite !append_assoc.
Qed.

Lemma occursIn_refl (x : string) : Spec.occursIn x x.
Proof. exists "", "". simpl. now rewrite append_nil_r. Qed.

Lemma occursIn_join (sep x : string) (l : list string) :
  In x l -> Spec.occursIn x (join sep l).
Proof.
  unfold join. induction l as [|y l IH]; intros Hin; [contradiction|].
  destruct l as [|z l].
  - destruct Hin as [->|[]]. apply occursIn_refl.
  - change (String.concat sep (y :: z :: l)) with (y ++ sep ++ String.concat sep (z :: l)).
    destruct Hin as [->|Hin].
    + apply occursIn_app_l, occursIn_refl.
    + apply occursIn_app_r, occursIn_app_r, IH, Hin.
Qed.

Lemma userMessage_eq (requestData : RequestData) (matchedResults : list MovieSearchResult) :
  userMessage requestData matchedResults
    = "Questions and Answers from " ++ numberOfPeople (movieSetUpPreferences requestData)
        ++ " people: "
        ++ join nl (map stringifiedQueryAndResponses (peopleResponses requestData))
        ++ nl ++ " Movie Recommendations: "
        ++ movieRecommendationsResultsString matchedResults.
Proof. reflexivity. Qed.

(** X14: when the embedding and the search return, the handler sends one
    generation request, and its user message contains the
    stringifiedQueryAndResponses of every participant and the content of
    every candidate whose content is not empty. *)
Theorem prompt_contains_inputs (w : World) (request : Request) (env : Env)
    (requestData : RequestData) (vector : list float) (others : list OpenAI.Embedding)
    (matchedResults : list MovieSearchResult) :
  method request = "POST" ->
  isOriginAllowed (origin request) (getAllowedOrigins env) = true ->
  json request = Returned requestData ->
  embeddings_create w (embeddingRequest requestData)
    = Returned (OpenAI.mkEmbeddingResponse (OpenAI.mkEmbedding vector :: others)) ->
  convex_action w (searchArgs vector) = Returned matchedResults ->
  generationCalls (fst (fetch w request env)) = [chatRequest requestData matchedResults] /\
  (forall person, In person (peopleResponses requestData) ->
     Spec.occursIn (stringifiedQueryAndResponses person)
       (userMessage requestData matchedResults)) /\
  (forall movie, In movie matchedResults -> content movie <> "" ->
     Spec.occursIn (content movie) (userMessage requestData matchedResults)).
Proof.
  intros Hmethod Hallowed Hjson Hembedding Hsearch. split; [|split].
  - rewrite (fetch_post _ _ _ Hmethod Hallowed), Hjson.
    unfold embeddingRequest in Hembedding. unfold chatRequest.
    run. rewrite Hembedding. run. rewrite Hsearch. run.
    repeat next_call; reflexivity.
  - intros person Hperson. rewrite userMessage_eq.
    do 3 apply occursIn_app_r. apply occursIn_app_l.
    apply occursIn_join, in_map, Hperson.
  - intros movie Hmovie Hcontent. rewrite userMessage_eq.
    do 6 apply occursIn_app_r.
    unfold movieRecommendationsResultsString. apply occursIn_join.
    apply filter_In. split; [now apply in_map|].
    unfold truthy. apply negb_true_iff, String.eqb_neq, Hcontent.
Qed.

Lemma prompt_contains_inputs_witness :
  Spec.occursIn "Movie m3" (userMessage Scenario.requestData Scenario.matched).
Proof.
  destruct (prompt_contains_inputs (Scenario.world None) Scenario.post Scenario.env
              Scenario.requestData Scenario.vector [] Scenario.matched
              eq_refl eq_refl eq_refl eq_refl eq_refl) as [_ [_ Hmovies]].
  apply (Hmovies (mkMovie "m3" "Movie m3" 0.3%float)).
  - right. right. left. reflexivity.
  - discriminate.
Defined.

(** X15: a candidate whose content is empty, as searchMovies returns for a
    match whose document is missing, adds nothing to the movie context of
    the prompt, not even a separator. *)
Theorem empty_content_skipped (before after : list MovieSearchResult)
    (key : string) (s : float) :
  movieRecommendationsResultsString (before ++ mkMovie key "" s :: after)
    = movieRecommendationsResultsString (before ++ after).
Proof.
  unfold movieRecommendationsResultsString.
  now rewrite !map_app, !filter_app.
Qed.

(** X25: the vector that is searched is the first embedding of the
    response of the embedding service, and it is searched once: further
    embeddings in the response are ignored. *)
Theorem search_uses_first_vector (w : World) (request : Request) (env : Env)
    (requestData : RequestData) (vector : list float) (others : list OpenAI.Embedding) :
  method request = "POST" ->
  isOriginAllowed (origin request) (getAllowedOrigins env) = true ->
  json request = Returned requestData ->
  embeddings_create w (embeddingRequest requestData)
    = Returned (OpenAI.mkEmbeddingResponse (OpenAI.mkEmbedding vector :: others)) ->
  searchCalls (fst (fetch w request env)) = [searchArgs vector].
Proof.
  intros Hmethod Hallowed Hjson Hembedding.
  rewrite (fetch_post _ _ _ Hmethod Hallowed), Hjson.
  unfold embeddingRequest in Hembedding.
  run. rewrite Hembedding. run. repeat next_call; reflexivity.
Qed.

Lemma search_uses_first_vector_witness :
  searchCalls (fst (fetch Scenario.searchDown Scenario.post Scenario.env))
    = [searchArgs Scenario.vector].
Proof.
  apply (search_uses_first_vector Scenario.searchDown Scenario.post Scenario.env
           Scenario.requestData Scenario.vector []); reflexivity.
Defined.

(** ** Failures and discarded matches of searchMovies *)



(** X17: searchMovies never looks up a match below the threshold: two
    tables that hold the same documents for the retained matches give the
    same result, whatever they hold for the others. *)
Theorem searchMovies_ignores_discarded (ctx ctx' : ActionCtx) (args : SearchArgs)
    (results : list VectorMatch) :
  vectorSearch ctx (embedding args) (matchCount args) = Returned results ->
  vectorSearch ctx' (embedding args) (matchCount args) = Returned results ->
  (forall r, In r (retained args results) -> getMovie ctx (_id r) = getMovie ctx' (_id r)) ->
  searchMovies ctx args = searchMovies ctx' args.
Proof.
  intros Hindex Hindex' Hsame. unfold searchMovies. rewrite Hindex, Hindex'.
  fold (retained args results). f_equal. apply map_ext_in.
  intros r Hr. unfold fetchMovie. now rewrite (Hsame r Hr).
Qed.

Lemma searchMovies_ignores_discarded_witness :
  searchMovies Scenario.ctx (searchArgs Scenario.vector)
    = searchMovies Cases.tableOfRetained (searchArgs Scenario.vector).
Proof.
  apply (searchMovies_ignores_discarded Scenario.ctx Cases.tableOfRetained
           (searchArgs Scenario.vector)
           [ mkMatch "m1" 0.9%float; mkMatch "m2" 0.5%float;
             mkMatch "m3" 0.3%float; mkMatch "m4" 0.1%float ]).
  - reflexivity.
  - reflexivity.
  - intros r Hr. vm_compute in Hr.
    destruct Hr as [<-|[<-|[<-|[]]]]; reflexivity.
Defined.


(** ** Edge cases of a successful run *)

(** X18: an empty result of the search is neither an error nor a no-match:
    the search span records the count 0 and the statistics 0, the
    generation call is still made, with an empty movie context, and unless
    the generated text carries the marker the response is a 200 whose
    movieRecommendations is the empty list, not null. *)
Theorem empty_candidates (w : World) (request : Request) (env : Env)
    (requestData : RequestData) (vector : list float) (others : list OpenAI.Embedding)
    (response : OpenAI.ChatCompletion) (first : OpenAI.Choice) (rest : list OpenAI.Choice) :
  method request = "POST" ->
  isOriginAllowed (origin request) (getAllowedOrigins env) = true ->
  json request = Returned requestData ->
  embeddings_create w (embeddingRequest requestData)
    = Returned (OpenAI.mkEmbeddingResponse (OpenAI.mkEmbedding vector :: others)) ->
  convex_action w (searchArgs vector) = Returned [] ->
  chat_completions_create w (chatRequest requestData []) = Returned response ->
  OpenAI.choices response = first :: rest ->
  includes (generatedText first) noMatchMarker = false ->
  searchOutputs (fst (fetch w request env)) = [Opik.SearchOutput 0 0%float 0%float 0%float] /\
  remoteCalls (fst (fetch w request env)) = [CallEmbedding; CallSearch; CallGeneration] /\
  movieRecommendationsResultsString [] = "" /\
  snd (fetch w request env)
    = Responded (mkResponse 200 (corsHeaders (origin request) env)
                   (SuccessBody (Some []) (generatedText first) false)).
Proof.
  intros Hmethod Hallowed Hjson Hembedding Hsearch Hchat Hchoices Hmarker.
  rewrite (fetch_post _ _ _ Hmethod Hallowed), Hjson.
  unfold embeddingRequest in Hembedding. unfold chatRequest in Hchat.
  run. rewrite Hembedding. run. rewrite Hsearch. run. rewrite Hchat. run.
  rewrite Hchoices. run.
  destruct (responseObject_cases (OpenAI.message_content (OpenAI.message first)) [])
    as [[Hin _] | [_ Hcase]].
  - unfold generatedText in Hmarker. cbv zeta in Hin. congruence.
  - rewrite Hcase. cbn [fst snd]. rewrite or_empty. repeat split.
Qed.

Lemma empty_candidates_witness :
  snd (fetch (Cases.noCandidate (Some "Nothing to watch tonight.")) Scenario.post Scenario.env)
    = Responded (mkResponse 200 (corsHeaders (origin Scenario.post) Scenario.env)
                   (SuccessBody (Some []) "Nothing to watch tonight." false)).
Proof.
  apply (empty_candidates (Cases.noCandidate (Some "Nothing to watch tonight."))
           Scenario.post Scenario.env Scenario.requestData Scenario.vector []
           (OpenAI.mkCompletion
              [ OpenAI.mkChoice (OpenAI.mkMessage (Some "Nothing to watch tonight.")) ] None)
           (OpenAI.mkChoice (OpenAI.mkMessage (Some "Nothing to watch tonight."))) []);
    reflexivity.
Defined.



(** ** The allow-list *)

Lemma split_lacks (c : ascii) (s : string) : lacks c s = true -> split c s = [s].
Proof.
  induction s as [|a s IH]; simpl; [reflexivity|].
  intros H. apply andb_true_iff in H. destruct H as [Ha Hs].
  apply negb_true_iff in Ha. now rewrite Ha, (IH Hs).
Qed.

Lemma split_app (c : ascii) (s rest : string) :
  lacks c s = true -> split c (s ++ String c rest) = s :: split c rest.
Proof.
  induction s as [|a s IH]; simpl.
  - intros _. now rewrite Ascii.eqb_refl.
  - intros H. apply andb_true_iff in H. destruct H as [Ha Hs].
    apply negb_true_iff in Ha. now rewrite Ha, (IH Hs).
Qed.

Lemma split_join (c : ascii) (entries : list string) :
  entries <> [] ->
  Forall (fun entry => lacks c entry = true) entries ->
  split c (join (String c "") entries) = entries.
Proof.
  intros Hsome Hlacks. unfold join.
  induction Hlacks as [|entry entries Hentry Hentries IH]; [congruence|].
  destruct entries as [|next entries].
  - now apply split_lacks.
  - change (String.concat (String c "") (entry :: next :: entries))
      with (entry ++ String c (String.concat (String c "") (next :: entries))).
    rewrite (split_app _ _ _ Hentry), IH; [reflexivity | discriminate].
Qed.

Lemma split_pieces (c : ascii) (s : string) :
  split c s <> [] /\ Forall (fun piece => lacks c piece = true) (split c s).
Proof.
  induction s as [|a s [Hsome Hall]]; simpl.
  - split; [discriminate | now constructor].
  - destruct (Ascii.eqb a c) eqn:Ha.
    + split; [discriminate | now constructor].
    + destruct (split c s) as [|h t]; [congruence|].
      split; [discriminate|]. inversion Hall; subst.
      constructor; [|assumption]. simpl. now rewrite Ha.
Qed.

Lemma trimStart_lacks (c : ascii) (s : string) :
  lacks c s = true -> lacks c (trimStart s) = true.
Proof.
  induction s as [|a s IH]; simpl; [reflexivity|].
  intros H. destruct (is_whitespace a); [|exact H].
  apply andb_true_iff in H. now apply IH.
Qed.

Lemma trimEnd_lacks (c : ascii) (s : string) :
  lacks c s = true -> lacks c (trimEnd s) = true.
Proof.
  induction s as [|a s IH]; simpl; [reflexivity|].
  intros H. apply andb_true_iff in H. destruct H as [Ha Hs].
  destruct (is_whitespace a && (trimEnd s =? "")); [reflexivity|].
  simpl. now rewrite Ha, (IH Hs).
Qed.

Lemma trimEnd_idempotent (s : string) : trimEnd (trimEnd s) = trimEnd s.
Proof.
  induction s as [|a s IH]; simpl; [reflexivity|].
  destruct (is_whitespace a && (trimEnd s =? "")) eqn:Hcase; [reflexivity|].
  simpl. now rewrite IH, Hcase.
Qed.

Lemma trimStart_trimEnd (s : string) :
  trimStart s = s -> trimStart (trimEnd s) = trimEnd s.
Proof.
  destruct s as [|a s]; simpl; [reflexivity|].
  destruct (is_whitespace a) eqn:Ha.
  - intros H. exfalso.
    assert (Hlen : forall t, String.length (trimStart t) <= String.length t).
    { induction t as [|b t IHt]; simpl; [lia|]. destruct (is_whitespace b); simpl; lia. }
    specialize (Hlen s). rewrite H in Hlen. simpl in Hlen. lia.
  - intros _. simpl. now rewrite Ha.
Qed.

Lemma trimStart_idempotent (s : string) : trimStart (trimStart s) = trimStart s.
Proof.
  induction s as [|a s IH]; simpl; [reflexivity|].
  destruct (is_whitespace a) eqn:Ha; [exact IH|]. simpl. now rewrite Ha.
Qed.

Lemma trim_idempotent (s : string) : trim (trim s) = trim s.
Proof.
  unfold trim.
  rewrite (trimStart_trimEnd (trimStart s) (trimStart_idempotent s)).
  apply trimEnd_idempotent.
Qed.

(** X20: a configured allow-list is read entry by entry: when
    ALLOWED_ORIGINS is the comma-joined list of entries that contain no
    comma (and is not the empty string), the allowed origins are exactly the
    entries with their surrounding white space removed, in order. *)
Theorem allowed_origins_configured (entries : list string) :
  entries <> [] ->
  Forall (fun entry => lacks "," entry = true) entries ->
  join "," entries <> "" ->
  getAllowedOrigins (mkEnv (Some (join "," entries))) = map trim entries.
Proof.
  intros Hsome Hlacks Hconfigured. unfold getAllowedOrigins. cbn [ALLOWED_ORIGINS].
  unfold truthy. apply String.eqb_neq in Hconfigured. rewrite Hconfigured.
  cbn [negb]. f_equal. now apply split_join.
Qed.

Lemma allowed_origins_configured_witness :
  getAllowedOrigins Cases.configured = ["https://popchoice.app"; "http://localhost:5173"].
Proof.
  apply (allowed_origins_configured ["https://popchoice.app "; " http://localhost:5173"]).
  - discriminate.
  - repeat constructor.
  - discriminate.
Defined.

(** X21: the allow-list is never empty: unset or empty, ALLOWED_ORIGINS
    stands for the one origin http://localhost:5173; and an origin that the
    handler allows is not empty, contains no comma and has no white space
    at either end, so a header value written otherwise is never allowed. *)
Theorem allowed_origin_form (env : Env) (o : string) :
  getAllowedOrigins env <> [] /\
  (ALLOWED_ORIGINS env = None \/ ALLOWED_ORIGINS env = Some "" ->
   getAllowedOrigins env = ["http://localhost:5173"]) /\
  (isOriginAllowed (Some o) (getAllowedOrigins env) = true ->
   o <> "" /\ lacks "," o = true /\ trim o = o).
Proof.
  split; [|split].
  - unfold getAllowedOrigins. destruct (ALLOWED_ORIGINS env) as [s|]; [|discriminate].
    destruct (truthy s); [|discriminate].
    destruct (split_pieces "," s) as [Hsome _].
    destruct (split "," s); [congruence | discriminate].
  - unfold getAllowedOrigins. now intros [-> | ->].
  - unfold isOriginAllowed. destruct (truthy o) eqn:Ho; [|discriminate].
    intros Hin. apply array_includes_iff in Hin. split.
    { intros ->. discriminate Ho. }
    unfold getAllowedOrigins in Hin. destruct (ALLOWED_ORIGINS env) as [s|].
    + destruct (truthy s).
      * apply in_map_iff in Hin. destruct Hin as [piece [<- Hpiece]].
        destruct (split_pieces "," s) as [_ Hall].
        rewrite Forall_forall in Hall. split; [|apply trim_idempotent].
        unfold trim. apply trimEnd_lacks, trimStart_lacks, Hall, Hpiece.
      * destruct Hin as [<-|[]]. split; reflexivity.
    + destruct Hin as [<-|[]]. split; reflexivity.
Qed.

Lemma allowed_origin_form_witness :
  "https://popchoice.app" <> "" /\
  lacks "," "https://popchoice.app" = true /\
  trim "https://popchoice.app" = "https://popchoice.app".
Proof.
  apply (allowed_origin_form Cases.configured "https://popchoice.app").
  reflexivity.
Defined.

(** X22: a non-empty value is echoed in Access-Control-Allow-Origin exactly
    when it is the origin of the request and an entry of the allow-list. *)
Theorem allow_origin_echo (origin : option string) (env : Env) (o : string) :
  o <> "" ->
  (header "Access-Control-Allow-Origin" (corsHeaders origin env) = Some o <->
   origin = Some o /\ In o (getAllowedOrigins env)).
Proof.
  intros Ho. unfold corsHeaders. cbn [header]. simpl (_ =? _).
  destruct origin as [o'|].
  - unfold isOriginAllowed. destruct (truthy o') eqn:Htruthy.
    + rewrite andb_true_r.
      destruct (array_includes (getAllowedOrigins env) o') eqn:Hin.
      * apply array_includes_iff in Hin. split.
        -- intros H. injection H as ->. auto.
        -- intros [H _]. exact H.
      * split; [intros H; injection H as <-; congruence|].
        intros [H Hin']. injection H as ->.
        apply array_includes_iff in Hin'. congruence.
    + cbn [andb]. split; [intros H; injection H as <-; congruence|].
      intros [H _]. injection H as ->.
      unfold truthy in Htruthy. apply negb_false_iff, String.eqb_eq in Htruthy. congruence.
  - split; [intros H; injection H as <-; congruence | intros [H _]; discriminate H].
Qed.

Lemma allow_origin_echo_witness :
  header "Access-Control-Allow-Origin"
    (corsHeaders (Some "https://popchoice.app") Cases.configured)
    = Some "https://popchoice.app".
Proof.
  apply (allow_origin_echo (Some "https://popchoice.app") Cases.configured
           "https://popchoice.app").
  - discriminate.
  - split; [reflexivity|]. vm_compute. left. reflexivity.
Defined.

(** ** The score statistics as extrema *)

(** The order of binary64 numbers, read through their specification. *)
Ltac order_cases :=
  repeat match goal with
  | |- context [Z.compare ?x ?y] => destruct (Z.compare_spec x y); try subst
  | |- context [Pos.compare ?x ?y] => destruct (Pos.compare_spec x y); try subst
  end.

Lemma SFltb_trans (a b c : spec_float) :
  SFltb a b = true -> SFltb b c = true -> SFltb a c = true.
Proof.
  unfold SFltb, SFcompare.
  destruct a as [[|]|[|]| |[|] ma ea], b as [[|]|[|]| |[|] mb eb], c as [[|]|[|]| |[|] mc ec];
    try discriminate; try reflexivity;
    change (Pos.compare_cont Eq) with Pos.compare;
    intros Hab Hbc; revert Hab Hbc;
    order_cases; simpl; intros; try discriminate; try reflexivity; try lia.
Qed.

Lemma SFltb_irrefl (a : spec_float) : SFltb a a = false.
Proof.
  unfold SFltb, SFcompare.
  destruct a as [[|]|[|]| |[|] ma ea]; try reflexivity;
    change (Pos.compare_cont Eq) with Pos.compare;
    rewrite Z.compare_refl, Pos.compare_refl; reflexivity.
Qed.

Lemma SFleb_of_not_ltb (a b : spec_float) :
  a <> S754_nan -> b <> S754_nan -> SFltb a b = false -> SFleb b a = true.
Proof.
  unfold SFltb, SFleb, SFcompare.
  destruct a as [[|]|[|]| |[|] ma ea], b as [[|]|[|]| |[|] mb eb];
    try congruence; try reflexivity;
    change (Pos.compare_cont Eq) with Pos.compare;
    intros _ _; order_cases; simpl; intros; try discriminate; try reflexivity; try lia.
Qed.

Lemma SFltb_zero (s s' : bool) (x : spec_float) :
  SFltb (S754_zero s) x = SFltb (S754_zero s') x /\
  SFltb x (S754_zero s) = SFltb x (S754_zero s').
Proof. destruct x as [[|]|[|]| |[|] m e]; split; reflexivity. Qed.

Lemma SFltb_neg_infinity (x : spec_float) :
  x <> S754_nan -> SFltb (S754_infinity true) x = false -> x = S754_infinity true.
Proof. destruct x as [[|]|[|]| |[|] m e]; try congruence; discriminate. Qed.

Lemma SFltb_infinity (x : spec_float) :
  x <> S754_nan -> SFltb x (S754_infinity false) = false -> x = S754_infinity false.
Proof. destruct x as [[|]|[|]| |[|] m e]; try congruence; discriminate. Qed.

Lemma classify_zero (x : float) :
  (classify x = PZero -> Prim2SF x = S754_zero false) /\
  (classify x = NZero -> Prim2SF x = S754_zero true).
Proof.
  rewrite classify_spec. unfold SF64classify, SFclassify.
  destruct (Prim2SF x) as [[|]|[|]| |[|] m e]; split; try discriminate; try reflexivity;
    destruct (Z.eqb _ _); discriminate.
Qed.

Lemma not_nan (x : float) : PrimFloat.is_nan x = false -> Prim2SF x <> S754_nan.
Proof.
  unfold PrimFloat.is_nan. rewrite eqb_spec. intros H Hnan. rewrite Hnan in H. discriminate H.
Qed.

Lemma ltb_trans (x y z : float) :
  PrimFloat.ltb x y = true -> PrimFloat.ltb y z = true -> PrimFloat.ltb x z = true.
Proof. rewrite !ltb_spec. apply SFltb_trans. Qed.

Lemma ltb_irrefl (x : float) : PrimFloat.ltb x x = false.
Proof. rewrite ltb_spec. apply SFltb_irrefl. Qed.

Lemma leb_of_not_ltb (x y : float) :
  PrimFloat.is_nan x = false -> PrimFloat.is_nan y = false ->
  PrimFloat.ltb x y = false -> PrimFloat.leb y x = true.
Proof.
  intros Hx Hy. rewrite ltb_spec, leb_spec.
  apply SFleb_of_not_ltb; now apply not_nan.
Qed.

Lemma max_step_choice (highest number : float) :
  max_step highest number = highest \/ max_step highest number = number.
Proof.
  unfold max_step.
  destruct (PrimFloat.classify number), (PrimFloat.classify highest);
    try (now right); destruct (PrimFloat.ltb highest number); auto.
Qed.

Lemma max_step_keeps (highest number x : float) :
  PrimFloat.ltb highest x = false -> PrimFloat.ltb (max_step highest number) x = false.
Proof.
  intros Hx.
  assert (Hif : PrimFloat.ltb (if PrimFloat.ltb highest number then number else highest) x
                = false).
  { destruct (PrimFloat.ltb highest number) eqn:Hn; [|exact Hx].
    destruct (PrimFloat.ltb number x) eqn:Hnx; [|reflexivity].
    rewrite (ltb_trans _ _ _ Hn Hnx) in Hx. discriminate Hx. }
  unfold max_step.
  destruct (PrimFloat.classify number) eqn:Hnumber; try exact Hif.
  destruct (PrimFloat.classify highest) eqn:Hhighest; try exact Hif.
  rewrite ltb_spec in *.
  rewrite (proj1 (classify_zero number) Hnumber).
  rewrite (proj2 (classify_zero highest) Hhighest) in Hx.
  now rewrite (proj1 (SFltb_zero false true _)).
Qed.

Lemma max_step_self (highest number : float) :
  PrimFloat.ltb (max_step highest number) number = false.
Proof.
  assert (Hif : PrimFloat.ltb (if PrimFloat.ltb highest number then number else highest)
                  number = false).
  { destruct (PrimFloat.ltb highest number) eqn:Hn; [apply ltb_irrefl | exact Hn]. }
  unfold max_step.
  destruct (PrimFloat.classify number); try exact Hif.
  destruct (PrimFloat.classify highest); try exact Hif.
  apply ltb_irrefl.
Qed.

Lemma fold_max_bound (xs : list float) : forall highest x,
  PrimFloat.ltb highest x = false \/ In x xs ->
  PrimFloat.ltb (fold_left max_step xs highest) x = false.
Proof.
  induction xs as [|number xs IH]; intros highest x; simpl.
  - intros [H|[]]. exact H.
  - intros [H|[<-|H]]; apply IH; auto using max_step_keeps, max_step_self.
Qed.

Lemma fold_max_choice (xs : list float) : forall highest,
  fold_left max_step xs highest = highest \/ In (fold_left max_step xs highest) xs.
Proof.
  induction xs as [|number xs IH]; intros highest; simpl; [now left|].
  destruct (IH (max_step highest number)) as [H|H]; [|now right; right].
  rewrite H. destruct (max_step_choice highest number) as [->| ->]; auto.
Qed.

Lemma min_step_choice (lowest number : float) :
  min_step lowest number = lowest \/ min_step lowest number = number.
Proof.
  unfold min_step.
  destruct (PrimFloat.classify number), (PrimFloat.classify lowest);
    try (now right); destruct (PrimFloat.ltb number lowest); auto.
Qed.

Lemma min_step_keeps (lowest number x : float) :
  PrimFloat.ltb x lowest = false -> PrimFloat.ltb x (min_step lowest number) = false.
Proof.
  intros Hx.
  assert (Hif : PrimFloat.ltb x (if PrimFloat.ltb number lowest then number else lowest)
                = false).
  { destruct (PrimFloat.ltb number lowest) eqn:Hn; [|exact Hx].
    destruct (PrimFloat.ltb x number) eqn:Hxn; [|reflexivity].
    rewrite (ltb_trans _ _ _ Hxn Hn) in Hx. discriminate Hx. }
  unfold min_step.
  destruct (PrimFloat.classify number) eqn:Hnumber; try exact Hif.
  destruct (PrimFloat.classify lowest) eqn:Hlowest; try exact Hif.
  rewrite ltb_spec in *.
  rewrite (proj2 (classify_zero number) Hnumber).
  rewrite (proj1 (classify_zero lowest) Hlowest) in Hx.
  now rewrite (proj2 (SFltb_zero true false _)).
Qed.

Lemma min_step_self (lowest number : float) :
  PrimFloat.ltb number (min_step lowest number) = false.
Proof.
  assert (Hif : PrimFloat.ltb number
                  (if PrimFloat.ltb number lowest then number else lowest) = false).
  { destruct (PrimFloat.ltb number lowest) eqn:Hn; [apply ltb_irrefl | exact Hn]. }
  unfold min_step.
  destruct (PrimFloat.classify number); try exact Hif.
  destruct (PrimFloat.classify lowest); try exact Hif.
  apply ltb_irrefl.
Qed.

Lemma fold_min_bound (xs : list float) : forall lowest x,
  PrimFloat.ltb x lowest = false \/ In x xs ->
  PrimFloat.ltb x (fold_left min_step xs lowest) = false.
Proof.
  induction xs as [|number xs IH]; intros lowest x; simpl.
  - intros [H|[]]. exact H.
  - intros [H|[<-|H]]; apply IH; auto using min_step_keeps, min_step_self.
Qed.

Lemma fold_min_choice (xs : list float) : forall lowest,
  fold_left min_step xs lowest = lowest \/ In (fold_left min_step xs lowest) xs.
Proof.
  induction xs as [|number xs IH]; intros lowest; simpl; [now left|].
  destruct (IH (min_step lowest number)) as [H|H]; [|now right; right].
  rewrite H. destruct (min_step_choice lowest number) as [->| ->]; auto.
Qed.

Lemma no_nan_scores (results : list MovieSearchResult) :
  Forall (fun movie => PrimFloat.is_nan (score movie) = false) results ->
  existsb PrimFloat.is_nan (map score results) = false.
Proof.
  induction 1 as [|movie results Hmovie _ IH]; simpl; [reflexivity|].
  now rewrite Hmovie, IH.
Qed.

(** [Math.max] of numbers without NaN is one of them and none is larger. *)
Lemma Math_max_spec (xs : list float) :
  xs <> [] -> existsb PrimFloat.is_nan xs = false ->
  In (Math_max xs) xs /\ forall x, In x xs -> PrimFloat.ltb (Math_max xs) x = false.
Proof.
  intros Hsome Hnan. unfold Math_max. rewrite Hnan.
  assert (Hbound : forall x, In x xs ->
            PrimFloat.ltb (fold_left max_step xs neg_infinity) x = false)
    by (intros x Hx; apply fold_max_bound; now right).
  split; [|exact Hbound].
  destruct (fold_max_choice xs neg_infinity) as [Hbottom|Hin]; [|exact Hin].
  rewrite Hbottom in *. destruct xs as [|x xs]; [congruence|]. left.
  specialize (Hbound x (or_introl eq_refl)). rewrite ltb_spec in Hbound.
  apply Prim2SF_inj. apply SFltb_neg_infinity in Hbound; [exact Hbound|].
  apply not_nan. simpl in Hnan. now apply orb_false_iff in Hnan.
Qed.

(** [Math.min] of numbers without NaN is one of them and none is smaller. *)
Lemma Math_min_spec (xs : list float) :
  xs <> [] -> existsb PrimFloat.is_nan xs = false ->
  In (Math_min xs) xs /\ forall x, In x xs -> PrimFloat.ltb x (Math_min xs) = false.
Proof.
  intros Hsome Hnan. unfold Math_min. rewrite Hnan.
  assert (Hbound : forall x, In x xs ->
            PrimFloat.ltb x (fold_left min_step xs infinity) = false)
    by (intros x Hx; apply fold_min_bound; now right).
  split; [|exact Hbound].
  destruct (fold_min_choice xs infinity) as [Htop|Hin]; [|exact Hin].
  rewrite Htop in *. destruct xs as [|x xs]; [congruence|]. left.
  specialize (Hbound x (or_introl eq_refl)). rewrite ltb_spec in Hbound.
  apply Prim2SF_inj. apply SFltb_infinity in Hbound; [exact Hbound|].
  apply not_nan. simpl in Hnan. now apply orb_false_iff in Hnan.
Qed.

(** X23: for a non-empty list of candidates none of whose scores is NaN,
    calculateTopScore is the score of one of the candidates and every score
    is at most it. *)
Theorem top_score_is_maximum (results : list MovieSearchResult) :
  results <> [] ->
  Forall (fun movie => PrimFloat.is_nan (score movie) = false) results ->
  (exists best, In best results /\ calculateTopScore results = score best) /\
  (forall movie, In movie results ->
     PrimFloat.leb (score movie) (calculateTopScore results) = true).
Proof.
  intros Hsome Hnan. unfold calculateTopScore.
  destruct results as [|first rest] eqn:Hresults; [congruence|].
  rewrite <- Hresults in *. replace (Nat.eqb (List.length results) 0) with false
    by (now rewrite Hresults).
  destruct (Math_max_spec (map score results)) as [Hin Hbound].
  - rewrite Hresults. discriminate.
  - now apply no_nan_scores.
  - apply in_map_iff in Hin. destruct Hin as [best [Hbest Hin]].
    split; [now exists best|].
    intros movie Hmovie. rewrite Forall_forall in Hnan.
    apply leb_of_not_ltb; [rewrite <- Hbest | |]; auto using in_map.
Qed.

Lemma top_score_is_maximum_witness :
  PrimFloat.leb 0.5%float (calculateTopScore Scenario.matched) = true.
Proof.
  destruct (top_score_is_maximum Scenario.matched) as [_ Hbound].
  - discriminate.
  - repeat constructor.
  - apply (Hbound (mkMovie "m2" "" 0.5%float)). right. left. reflexivity.
Defined.

(** X24: for a non-empty list of candidates none of whose scores is NaN,
    calculateMinScore is the score of one of the candidates and every score
    is at least it; in particular it is at most calculateTopScore. *)
Theorem min_score_is_minimum (results : list MovieSearchResult) :
  results <> [] ->
  Forall (fun movie => PrimFloat.is_nan (score movie) = false) results ->
  (exists worst, In worst results /\ calculateMinScore results = score worst) /\
  (forall movie, In movie results ->
     PrimFloat.leb (calculateMinScore results) (score movie) = true) /\
  PrimFloat.leb (calculateMinScore results) (calculateTopScore results) = true.
Proof.
  intros Hsome Hnan.
  assert (Hmin : (exists worst, In worst results /\ calculateMinScore results = score worst) /\
                 (forall movie, In movie results ->
                    PrimFloat.leb (calculateMinScore results) (score movie) = true)).
  { unfold calculateMinScore.
    destruct results as [|first rest] eqn:Hresults; [congruence|].
    rewrite <- Hresults in *. replace (Nat.eqb (List.length results) 0) with false
      by (now rewrite Hresults).
    destruct (Math_min_spec (map score results)) as [Hin Hbound].
    - rewrite Hresults. discriminate.
    - now apply no_nan_scores.
    - apply in_map_iff in Hin. destruct Hin as [worst [Hworst Hin]].
      split; [now exists worst|].
      intros movie Hmovie. rewrite Forall_forall in Hnan.
      apply leb_of_not_ltb; [ |rewrite <- Hworst| ]; auto using in_map. }
  destruct Hmin as [Hworst Hbound]. split; [exact Hworst|]. split; [exact Hbound|].
  unfold calculateTopScore.
  destruct results as [|first rest] eqn:Hresults; [congruence|].
  rewrite <- Hresults in *. replace (Nat.eqb (List.length results) 0) with false
    by (now rewrite Hresults).
  destruct (Math_max_spec (map score results)) as [Hin _].
  - rewrite Hresults. discriminate.
  - now apply no_nan_scores.
  - apply in_map_iff in Hin. destruct Hin as [best [<- Hin]]. now apply Hbound.
Qed.

Lemma min_score_is_minimum_witness :
  PrimFloat.leb (calculateMinScore Scenario.matched) (calculateTopScore Scenario.matched)
    = true.
Proof.
  apply (min_score_is_minimum Scenario.matched).
  - discriminate.
  - repeat constructor.
Defined.
